(** * Sexagenary cycle and luck-cycle engine of the saju analyser

    A shallow embedding of the pure part of the analysis service
    ([geminiService.ts]): the symbol tables, the Ten-God resolver, the
    pillar builder, the 60-term cycle indexer and the three luck-cycle
    projectors (Daeun, Saeun, Wolun), followed by the properties proved
    about them.

    Conventions of the embedding.
    - JavaScript strings are [string]s (the Hanja and Hangul symbols are
      their UTF-8 bytes; only equality of symbols is ever used).
    - Integral JavaScript numbers are [Z]; the operator [%] is the
      truncating remainder [Z.rem], whose sign follows the dividend.
    - The ages of the decade cycle, which need not be integral, are
      rationals, see [Num].
    - An array read [a[k]] is [arr_get a k : option _], with [None] for
      [undefined].
    - A counted loop that pushes one element per round is a left fold
      over its counter values, see [push_loop]. *)

From Stdlib Require Import ZArith QArith Qround Qabs List String Bool Lia.
Import ListNotations.

#[local] Open Scope string_scope.
#[local] Open Scope list_scope.
#[local] Open Scope Z_scope.

(* ------------------------------------------------------------------ *)
(** ** JavaScript array primitives *)

Module JS.

Section Arrays.
Context {A : Type}.

(** [a[k]]: [None] is [undefined] (negative or past the end). *)
Definition arr_get (a : list A) (k : Z) : option A :=
  if k <? 0 then None else nth_error a (Z.to_nat k).

(** [for (let i = lo; i < lo + n; i++) acc.push(body(i))] run on an
    accumulator that already holds [acc]. *)
Definition push_loop {I : Type} (idx : list I) (body : I -> A)
    (acc : list A) : list A :=
  fold_left (fun l i => l ++ [body i]) idx acc.
End Arrays.

(** The counter values [lo, lo+1, ..., lo+n-1] of a counted loop. *)
Definition counter (lo : Z) (n : nat) : list Z :=
  map (fun k => lo + Z.of_nat k) (seq 0 n).

(** [a.indexOf(x)] on an array of strings: first position, or [-1]. *)
Fixpoint indexOf_from (a : list string) (x : string) (pos : Z) : Z :=
  match a with
  | [] => -1
  | y :: rest => if String.eqb y x then pos else indexOf_from rest x (pos + 1)
  end.

Definition indexOf (a : list string) (x : string) : Z := indexOf_from a x 0.

(** [a.includes(x)]. *)
Definition includes (a : list string) (x : string) : bool :=
  existsb (String.eqb x) a.

(** A string-valued read where [undefined] is kept as the empty
    string: used only where the index is proved to be in range, or
    where the value is immediately looked up and an absent symbol
    and the empty string behave alike (neither is in any table). *)
Definition str_or_undef (o : option string) : string :=
  match o with Some s => s | None => "" end.

End JS.

Import JS.

(* ------------------------------------------------------------------ *)
(** ** Static data and lookup tables *)

Definition GAN : list string :=
  ["甲"; "乙"; "丙"; "丁"; "戊"; "己"; "庚"; "辛"; "壬"; "癸"].
Definition ZHI : list string :=
  ["子"; "丑"; "寅"; "卯"; "辰"; "巳"; "午"; "未"; "申"; "酉"; "戌"; "亥"].
Definition GAN_KOR : list string :=
  ["갑"; "을"; "병"; "정"; "무"; "기"; "경"; "신"; "임"; "계"].
Definition ZHI_KOR : list string :=
  ["자"; "축"; "인"; "묘"; "진"; "사"; "오"; "미"; "신"; "유"; "술"; "해"].


Inductive ElementType : Type := Wood | Fire | Earth | Metal | Water.

(** A [Record<string, V>] literal, read by key. The keys that reach
    these tables are symbols of the charts; property names that a
    JavaScript object inherits from its prototype are not modelled. *)
Fixpoint record_get {V : Type} (r : list (string * V)) (key : string)
    : option V :=
  match r with
  | [] => None
  | (k, v) :: rest => if String.eqb k key then Some v else record_get rest key
  end.

Definition ELEMENT_MAP : list (string * ElementType) :=
  [ ("甲", Wood); ("乙", Wood); ("寅", Wood); ("卯", Wood);
    ("丙", Fire); ("丁", Fire); ("巳", Fire); ("午", Fire);
    ("戊", Earth); ("己", Earth); ("辰", Earth); ("戌", Earth);
    ("丑", Earth); ("未", Earth);
    ("庚", Metal); ("辛", Metal); ("申", Metal); ("酉", Metal);
    ("壬", Water); ("癸", Water); ("亥", Water); ("子", Water) ].

Definition COLOR_MAP (e : ElementType) : string :=
  match e with
  | Wood => "#4A7c59" | Fire => "#D9534F" | Earth => "#Eebb4d"
  | Metal => "#Aaaaaa" | Water => "#292b2c"
  end.

(** Ten Gods lookup table: rows are the Day Stem (0 = 甲 ... 9 = 癸),
    columns the target Stem. *)
Definition TEN_GODS_MAP : list (list string) :=
  [ ["비견"; "겁재"; "식신"; "상관"; "편재"; "정재"; "편관"; "정관"; "편인"; "정인"];
    ["겁재"; "비견"; "상관"; "식신"; "정재"; "편재"; "정관"; "편관"; "정인"; "편인"];
    ["편인"; "정인"; "비견"; "겁재"; "식신"; "상관"; "편재"; "정재"; "편관"; "정관"];
    ["정인"; "편인"; "겁재"; "비견"; "상관"; "식신"; "정재"; "편재"; "정관"; "편관"];
    ["편관"; "정관"; "편인"; "정인"; "비견"; "겁재"; "식신"; "상관"; "편재"; "정재"];
    ["정관"; "편관"; "정인"; "편인"; "겁재"; "비견"; "상관"; "식신"; "정재"; "편재"];
    ["편재"; "정재"; "편관"; "정관"; "편인"; "정인"; "비견"; "겁재"; "식신"; "상관"];
    ["정재"; "편재"; "정관"; "편관"; "정인"; "편인"; "겁재"; "비견"; "상관"; "식신"];
    ["식신"; "상관"; "편재"; "정재"; "편관"; "정관"; "편인"; "정인"; "비견"; "겁재"];
    ["상관"; "식신"; "정재"; "편재"; "정관"; "편관"; "정인"; "편인"; "겁재"; "비견"] ].

(** Branch to the Stem of its main qi. *)
Definition BRANCH_MAIN_QI : list (string * string) :=
  [ ("子", "癸"); ("丑", "己"); ("寅", "甲"); ("卯", "乙"); ("辰", "戊");
    ("巳", "丙"); ("午", "丁"); ("未", "己"); ("申", "庚"); ("酉", "辛");
    ("戌", "戊"); ("亥", "壬") ].

(* ------------------------------------------------------------------ *)
(** ** Helper functions *)

Definition getKoreanChar (hanja : string) : string :=
  let ganIdx := indexOf GAN hanja in
  if negb (ganIdx =? -1) then str_or_undef (arr_get GAN_KOR ganIdx)
  else
    let zhiIdx := indexOf ZHI hanja in
    if negb (zhiIdx =? -1) then str_or_undef (arr_get ZHI_KOR zhiIdx)
    else "".

Definition getTenGod (dayStem target : string) : string :=
  if String.eqb dayStem target then "비견"
  else
    let dayIdx := indexOf GAN dayStem in
    let targetStem :=
      if includes ZHI target
      then str_or_undef (record_get BRANCH_MAIN_QI target)
      else target in
    let targetIdx := indexOf GAN targetStem in
    if ((dayIdx =? -1) || (targetIdx =? -1))%bool then ""
    else
      match arr_get TEN_GODS_MAP dayIdx with
      | Some row => str_or_undef (arr_get row targetIdx)
      | None => ""
      end.

(* ------------------------------------------------------------------ *)
(** *** The 60-term cycle indexer *)

(** The pair returned by [getGanZhiFromIndex]. *)
Record GanZhi : Type := mkGanZhi { stem : string; branch : string }.

(** The test [GAN[i % 10] === stem && ZHI[i % 12] === branch] of the
    loop of [getGanZhiIndex]. *)
Definition matches_at (s b : string) (i : Z) : bool :=
  (String.eqb (str_or_undef (arr_get GAN (Z.rem i 10))) s
   && String.eqb (str_or_undef (arr_get ZHI (Z.rem i 12))) b)%bool.

(** The scan [for (let i = 0; i < 60; i++) if (...) return i;] of
    [getGanZhiIndex], with [todo] rounds left from counter [i]: [None]
    when the loop runs to its end. *)
Fixpoint scan_cycle (s b : string) (i : Z) (todo : nat) : option Z :=
  match todo with
  | O => None
  | S todo' =>
      if matches_at s b i then Some i
      else scan_cycle s b (i + 1) todo'
  end.

(** The two [indexOf] results that the source computes first are not
    used by it; the position comes from the scan alone, and the
    [return 0] after the loop is the fallback. *)
Definition getGanZhiIndex (s b : string) : Z :=
  match scan_cycle s b 0 60 with
  | Some i => i
  | None => 0
  end.

Definition normalizedIndex (index : Z) : Z :=
  Z.rem (Z.rem index 60 + 60) 60.

Definition getGanZhiFromIndex (index : Z) : GanZhi :=
  {| stem := str_or_undef (arr_get GAN (Z.rem (normalizedIndex index) 10));
     branch := str_or_undef (arr_get ZHI (Z.rem (normalizedIndex index) 12)) |}.


(* ------------------------------------------------------------------ *)
(** ** Numbers of the decade cycle

    The ages of [calculateDaeun] are JavaScript numbers that need not be
    integral. They are modelled as exact rationals, with [None] for
    [NaN] (an [undefined] operand). For the days of a calendar the
    values that occur are half-integers, thirds and tenths of magnitude
    at most 100; a third is never within a sixth of the threshold of
    [Math.round] and a tenth never within a tenth of that of
    [Math.floor], so the binary rounding of the source changes no
    integer that these two return. The negative zero that
    [Math.round(-0.5)] yields is the number 0. *)

Module Num.

Definition t : Type := option Q.

Definition NaN : t := None.
Definition of_Z (z : Z) : t := Some (inject_Z z).
Definition of_undef (o : option Z) : t := option_map inject_Z o.

Definition lift1 (f : Q -> Q) (a : t) : t := option_map f a.
Definition lift2 (f : Q -> Q -> Q) (a b : t) : t :=
  match a, b with
  | Some x, Some y => Some (f x y)
  | _, _ => None
  end.

Definition add : t -> t -> t := lift2 Qplus.
Definition sub : t -> t -> t := lift2 Qminus.
Definition mul : t -> t -> t := lift2 Qmult.
Definition div : t -> t -> t := lift2 Qdiv.

(** [Math.floor]. *)
Definition floor : t -> t := lift1 (fun q => inject_Z (Qfloor q)).
(** [Math.round]: to the nearest integer, halves upwards. *)
Definition round : t -> t :=
  lift1 (fun q => inject_Z (Qfloor (q + (1 # 2))%Q)).
(** [Math.abs]. *)
Definition abs : t -> t := lift1 Qabs.
(** [a < 0]; a comparison with [NaN] is false. *)
Definition ltb0 (a : t) : bool :=
  match a with
  | Some q => negb (Qle_bool 0 q)
  | None => false
  end.

End Num.

(* ------------------------------------------------------------------ *)
(** ** The luck cycles *)

Inductive Gender : Type := male | female.

Module DaeunEntry.
Record t : Type := mk {
  startAge : Num.t;
  endAge : Num.t;
  stem : string;
  branch : string;
  stemKorean : string;
  branchKorean : string;
  startYear : Num.t
}.
End DaeunEntry.

Module SaeunEntry.
Record t : Type := mk {
  year : Z;
  age : Z;
  stem : string;
  branch : string;
  stemKorean : string;
  branchKorean : string
}.
End SaeunEntry.

Module WolunEntry.
Record t : Type := mk {
  year : Z;
  month : Z;
  stem : string;
  branch : string;
  stemKorean : string;
  branchKorean : string
}.
End WolunEntry.

(** *** Daeun: the decade cycle *)

(** [isForward] of [calculateDaeun]. *)
Definition isForward (yearStem : string) (gender : Gender) : bool :=
  let yearStemIdx := indexOf GAN yearStem in
  let isYangYear := Z.rem yearStemIdx 2 =? 0 in
  let isMale := match gender with male => true | female => false end in
  ((isYangYear && isMale) || (negb isYangYear && negb isMale))%bool.

Definition daysInMonth : list Z :=
  [31; 28; 31; 30; 31; 30; 31; 31; 30; 31; 30; 31].

(** [startAge] of [calculateDaeun]. *)
Definition daeunStartAge (birthMonth birthDay : Z) : Num.t :=
  let daysToJeolgi :=
    Num.round
      (Num.add
         (Num.sub
            (Num.div (Num.of_undef (arr_get daysInMonth (birthMonth - 1)))
                     (Num.of_Z 2))
            (Num.of_Z birthDay))
         (Num.of_Z 15)) in
  let daysToJeolgi :=
    if Num.ltb0 daysToJeolgi then Num.abs daysToJeolgi else daysToJeolgi in
  Num.div
    (Num.round (Num.mul (Num.div daysToJeolgi (Num.of_Z 3)) (Num.of_Z 10)))
    (Num.of_Z 10).

(** The body of the loop of [calculateDaeun], at counter [i]. *)
Definition daeunEntry (birthYear : Z) (forward : bool) (monthGanZhiIdx : Z)
    (startAge : Num.t) (i : Z) : DaeunEntry.t :=
  let ganZhiIdx :=
    if forward then monthGanZhiIdx + i + 1 else monthGanZhiIdx - i - 1 in
  let gz := getGanZhiFromIndex ganZhiIdx in
  let ageStart :=
    if i =? 0 then startAge
    else Num.add (Num.floor startAge) (Num.of_Z (i * 10)) in
  let ageEnd :=
    Num.sub (Num.add (Num.floor startAge) (Num.of_Z ((i + 1) * 10)))
            (Num.of_Z 1) in
  {| DaeunEntry.startAge := ageStart;
     DaeunEntry.endAge := ageEnd;
     DaeunEntry.stem := stem gz;
     DaeunEntry.branch := branch gz;
     DaeunEntry.stemKorean := getKoreanChar (stem gz);
     DaeunEntry.branchKorean := getKoreanChar (branch gz);
     DaeunEntry.startYear :=
       Num.add (Num.of_Z birthYear) (Num.floor ageStart) |}.

Record DaeunResult : Type := mkDaeunResult {
  daeun : list DaeunEntry.t;
  startAge : Num.t
}.

Definition calculateDaeun (birthYear birthMonth birthDay : Z)
    (gender : Gender) (monthStem monthBranch yearStem : string)
    : DaeunResult :=
  let forward := isForward yearStem gender in
  let monthGanZhiIdx := getGanZhiIndex monthStem monthBranch in
  let startAge := daeunStartAge birthMonth birthDay in
  let daeunList :=
    push_loop (counter 0 13)
      (daeunEntry birthYear forward monthGanZhiIdx startAge) [] in
  {| daeun := daeunList; startAge := startAge |}.

(** *** Saeun: the year cycle *)

Definition saeunEntry (birthYear age : Z) : SaeunEntry.t :=
  let currentYear := birthYear + age - 1 in
  let yearOffset := currentYear - 1984 in
  let ganZhiIdx := Z.rem (Z.rem yearOffset 60 + 60) 60 in
  let stem := str_or_undef (arr_get GAN (Z.rem ganZhiIdx 10)) in
  let branch := str_or_undef (arr_get ZHI (Z.rem ganZhiIdx 12)) in
  {| SaeunEntry.year := currentYear;
     SaeunEntry.age := age;
     SaeunEntry.stem := stem;
     SaeunEntry.branch := branch;
     SaeunEntry.stemKorean := getKoreanChar stem;
     SaeunEntry.branchKorean := getKoreanChar branch |}.

Definition calculateSaeun (birthYear : Z) : list SaeunEntry.t :=
  push_loop (counter 1 110) (saeunEntry birthYear) [].

(** *** Wolun: the month cycle *)

(** The first-month Stem index keyed on the Stem index of the year. *)
Definition fiveTigers : list Z := [2; 4; 6; 8; 0; 2; 4; 6; 8; 0].

(** An index that may be [NaN] ([undefined] plus a number) reads
    [undefined] from any array. *)
Definition arr_get_nan {A : Type} (a : list A) (k : option Z) : option A :=
  match k with
  | Some k => arr_get a k
  | None => None
  end.

Definition wolunEntry (currentYear monthNum : Z) : WolunEntry.t :=
  let yearGanZhiIdx := Z.rem (Z.rem (currentYear - 1984) 60 + 60) 60 in
  let yearGan := str_or_undef (arr_get GAN (Z.rem yearGanZhiIdx 10)) in
  let yearGanIdx := indexOf GAN yearGan in
  let monthStemStartIdx := arr_get fiveTigers yearGanIdx in
  let monthStemIdx :=
    option_map (fun st => Z.rem (st + monthNum - 1) 10) monthStemStartIdx in
  let monthStem := str_or_undef (arr_get_nan GAN monthStemIdx) in
  let monthBranchIdx := Z.rem (monthNum + 1) 12 in
  let monthBranch := str_or_undef (arr_get ZHI monthBranchIdx) in
  {| WolunEntry.year := currentYear;
     WolunEntry.month := monthNum;
     WolunEntry.stem := monthStem;
     WolunEntry.branch := monthBranch;
     WolunEntry.stemKorean := getKoreanChar monthStem;
     WolunEntry.branchKorean := getKoreanChar monthBranch |}.

Definition calculateWolun (birthYear : Z) : list WolunEntry.t :=
  fold_left
    (fun wolunList yearOffset =>
       let currentYear := birthYear + yearOffset in
       push_loop (counter 1 12) (wolunEntry currentYear) wolunList)
    (counter 0 60) [].

(* ------------------------------------------------------------------ *)
(** ** Main analysis logic: the pillars of [analyzeSaju] *)

Module Pillar.
Record t : Type := mk {
  stem : string;
  stemKorean : string;
  stemTenGod : string;
  branch : string;
  branchKorean : string;
  branchTenGod : string;
  element : ElementType;
  color : option string
}.
End Pillar.

(** [createPillar] closes over the [dayStem] of the chart. *)
Definition createPillar (dayStem : string) (stem branch : string)
    : Pillar.t :=
  {| Pillar.stem := stem;
     Pillar.stemKorean := getKoreanChar stem;
     Pillar.stemTenGod :=
       if String.eqb stem dayStem then "일원" else getTenGod dayStem stem;
     Pillar.branch := branch;
     Pillar.branchKorean := getKoreanChar branch;
     Pillar.branchTenGod := getTenGod dayStem branch;
     Pillar.element :=
       match record_get ELEMENT_MAP stem with Some e => e | None => Earth end;
     Pillar.color := option_map COLOR_MAP (record_get ELEMENT_MAP stem) |}.

(** The eight symbols handed over by the calendar converter. *)
Record EightChar : Type := mkEightChar {
  yearStem : string;   yearBranch : string;
  monthStem : string;  monthBranch : string;
  dayStem : string;    dayBranch : string;
  hourStem : string;   hourBranch : string
}.

Record FourPillars : Type := mkFourPillars {
  yearPillar : Pillar.t;
  monthPillar : Pillar.t;
  dayPillar : Pillar.t;
  hourPillar : Pillar.t
}.

(** Step 3 of [analyzeSaju]: the four pillar objects. *)
Definition analyzeSaju_pillars (c : EightChar) : FourPillars :=
  let mkp := createPillar (dayStem c) in
  {| yearPillar := mkp (yearStem c) (yearBranch c);
     monthPillar := mkp (monthStem c) (monthBranch c);
     dayPillar := mkp (dayStem c) (dayBranch c);
     hourPillar := mkp (hourStem c) (hourBranch c) |}.

(** A chart is well formed when its Stems and Branches come from the
    two symbol tables. *)
Definition validEightChar (c : EightChar) : Prop :=
  In (yearStem c) GAN /\ In (yearBranch c) ZHI /\
  In (monthStem c) GAN /\ In (monthBranch c) ZHI /\
  In (dayStem c) GAN /\ In (dayBranch c) ZHI /\
  In (hourStem c) GAN /\ In (hourBranch c) ZHI.

(* ------------------------------------------------------------------ *)
(** ** Main analysis logic: the element tally of [analyzeSaju] *)

(** The object [{ Wood: 0, Fire: 0, Earth: 0, Metal: 0, Water: 0 }]. *)
Module Counts.
Record t : Type := mk {
  wood : Z;
  fire : Z;
  earth : Z;
  metal : Z;
  water : Z
}.
Definition zero : t := mk 0 0 0 0 0.
Definition total (c : t) : Z := wood c + fire c + earth c + metal c + water c.
End Counts.

(** [counts[el]++]. *)
Definition counts_incr (el : ElementType) (c : Counts.t) : Counts.t :=
  match el with
  | Wood => Counts.mk (Counts.wood c + 1) (Counts.fire c) (Counts.earth c)
                      (Counts.metal c) (Counts.water c)
  | Fire => Counts.mk (Counts.wood c) (Counts.fire c + 1) (Counts.earth c)
                      (Counts.metal c) (Counts.water c)
  | Earth => Counts.mk (Counts.wood c) (Counts.fire c) (Counts.earth c + 1)
                       (Counts.metal c) (Counts.water c)
  | Metal => Counts.mk (Counts.wood c) (Counts.fire c) (Counts.earth c)
                       (Counts.metal c + 1) (Counts.water c)
  | Water => Counts.mk (Counts.wood c) (Counts.fire c) (Counts.earth c)
                       (Counts.metal c) (Counts.water c + 1)
  end.

(** One round of [allChars.forEach]: a symbol without an element is
    passed over. *)
Definition count_char (counts : Counts.t) (char : string) : Counts.t :=
  match record_get ELEMENT_MAP char with
  | Some el => counts_incr el counts
  | None => counts
  end.

Definition allChars (c : EightChar) : list string :=
  [ yearStem c; yearBranch c; monthStem c; monthBranch c;
    dayStem c; dayBranch c; hourStem c; hourBranch c ].

(** Step 2 of [analyzeSaju]. *)
Definition analyzeSaju_counts (c : EightChar) : Counts.t :=
  fold_left count_char (allChars c) Counts.zero.

(* ------------------------------------------------------------------ *)
(** ** The chat history of [consultSaju] *)

(** One turn [{ role, parts: [{ text }, ...] }]; [parts] keeps the
    texts. *)
Record ChatTurn : Type := mkChatTurn {
  role : string;
  parts : list string
}.

(** [adjustedHistory]: a copy of the history, with an opening user turn
    put in front when the history starts with a turn of the model. *)
Definition adjustedHistory (chatHistory : list ChatTurn) : list ChatTurn :=
  match chatHistory with
  | first :: _ =>
      if String.eqb (role first) "model"
      then {| role := "user";
              parts := ["도사님, 제 사주 결과를 알려주십시오."] |}
           :: chatHistory
      else chatHistory
  | [] => chatHistory
  end.

(* ------------------------------------------------------------------ *)
(** ** The API key of the service module

    The module keeps a client [ai] (or [null]) and the browser keeps the
    key in [localStorage]. The client is opaque here: it is known by the
    key it was made with. *)

Module ApiKey.

(** [localStorage]: the latest value stored under a key is the one in
    front. *)
Definition Storage : Type := list (string * string).

Definition setItem (key value : string) (st : Storage) : Storage :=
  (key, value) :: st.

Definition getItem (key : string) (st : Storage) : option string :=
  record_get st key.

Record State : Type := mkState {
  ai : option string;
  localStorage : Storage
}.

Definition setApiKey (apiKey : string) (s : State) : State :=
  {| ai := Some apiKey;
     localStorage := setItem "gemini_api_key" apiKey (localStorage s) |}.

Definition getStoredApiKey (s : State) : option string :=
  getItem "gemini_api_key" (localStorage s).

Definition isApiKeySet (s : State) : bool :=
  match ai s with Some _ => true | None => false end.

(** The truth value of a string or [null]: the empty string is false. *)
Definition truthy (o : option string) : bool :=
  match o with
  | Some s => negb (String.eqb s "")
  | None => false
  end.

(** Loading the module in a browser whose storage is [st]: the client is
    made from the stored key when there is one. *)
Definition loadModule (st : Storage) : State :=
  let storedKey := getItem "gemini_api_key" st in
  {| ai := if truthy storedKey then storedKey else None;
     localStorage := st |}.

End ApiKey.

(* ------------------------------------------------------------------ *)
(** ** The tables as the page shows them *)

(** [wolun.filter(w => w.year === year)]: the months shown for one of the
    displayed years. *)
Definition yearWolun (wolun : list WolunEntry.t) (year : Z)
    : list WolunEntry.t :=
  filter (fun w => WolunEntry.year w =? year) wolun.


(** [a <= b] on numbers; a comparison with [NaN] is false. *)
Definition num_leb (a b : Num.t) : bool :=
  match a, b with
  | Some x, Some y => Qle_bool x y
  | _, _ => false
  end.

(** [isCurrentDaeun], for [currentAge = currentYear - birthYear + 1]:
    [currentAge >= d.startAge && currentAge <= d.endAge]. *)
Definition isCurrentDaeun (currentAge : Z) (d : DaeunEntry.t) : bool :=
  (num_leb (DaeunEntry.startAge d) (Num.of_Z currentAge)
   && num_leb (Num.of_Z currentAge) (DaeunEntry.endAge d))%bool.

(* ------------------------------------------------------------------ *)
(** ** Vocabulary of the properties *)

(** The pair [(s, b)] stands at some position of the cycle. *)
Definition in_cycle (s b : string) : Prop :=
  exists i, 0 <= i <= 59
            /\ arr_get GAN (Z.rem i 10) = Some s
            /\ arr_get ZHI (Z.rem i 12) = Some b.

(** Two symbols of the tables whose ordinals differ in parity. *)
Definition parity_mismatch (s b : string) : Prop :=
  In s GAN /\ In b ZHI /\ (indexOf GAN s) mod 2 <> (indexOf ZHI b) mod 2.

(** The Five Tigers correspondence as the specification words it:
    Stem ordinals {0,5} give 2, {1,6} give 4, {2,7} give 6, {3,8} give 8
    and {4,9} give 0. *)
Definition spec_fiveTigersStart (stemOrdinal : Z) : Z :=
  if (stemOrdinal =? 0) || (stemOrdinal =? 5) then 2
  else if (stemOrdinal =? 1) || (stemOrdinal =? 6) then 4
  else if (stemOrdinal =? 2) || (stemOrdinal =? 7) then 6
  else if (stemOrdinal =? 3) || (stemOrdinal =? 8) then 8
  else 0.

(** The Stem ordinal of calendar year [y]: the ordinal of the Stem that
    the cycle, anchored at 1984, gives to [y]. *)
Definition yearStemOrdinal (y : Z) : Z :=
  indexOf GAN (stem (getGanZhiFromIndex (y - 1984))).

(** The Stem and Branch of a decade entry, as a pair. *)
Definition daeunPair (e : DaeunEntry.t) : GanZhi :=
  {| stem := DaeunEntry.stem e; branch := DaeunEntry.branch e |}.

(** The ten labels of the Ten Gods, in the order of the first row of the
    table: the companions, the outputs, the wealths, the officers and
    the resources, each with the label of equal polarity first. *)
Definition TEN_GODS : list string :=
  ["비견"; "겁재"; "식신"; "상관"; "편재"; "정재"; "편관"; "정관"; "편인"; "정인"].

(** The five elements in the order of their generation cycle. *)
Definition ELEMENTS : list ElementType := [Wood; Fire; Earth; Metal; Water].

(** A symbol of either table. *)
Definition is_symbol (s : string) : Prop := In s GAN \/ In s ZHI.

(** The chart 甲子 / 丙寅 / 甲午 / 庚午: its Year Stem has the value of
    the Day Master. *)
Definition chart_same_year_stem : EightChar :=
  {| yearStem := "甲";  yearBranch := "子";
     monthStem := "丙"; monthBranch := "寅";
     dayStem := "甲";   dayBranch := "午";
     hourStem := "庚";  hourBranch := "午" |}.

(** The Korean labels of two symbols, compared. *)
Definition same_label_only_if (a b : string) : bool :=
  implb (String.eqb (getKoreanChar a) (getKoreanChar b))
        (String.eqb a b
         || (String.eqb a "辛" && String.eqb b "申")
         || (String.eqb a "申" && String.eqb b "辛")).

(** The test of X10 on two targets of one Day Stem, and on two Day Stems
    of one target. *)
Definition tenGod_separates (d t1 t2 : string) : bool :=
  (implb (String.eqb (getTenGod d t1) (getTenGod d t2)) (String.eqb t1 t2)
   && implb (String.eqb (getTenGod t1 d) (getTenGod t2 d)) (String.eqb t1 t2)).

(** The symbol has the element [e] in [ELEMENT_MAP]. *)
Definition has_element (e : ElementType) (s : string) : bool :=
  match record_get ELEMENT_MAP s, e with
  | Some Wood, Wood | Some Fire, Fire | Some Earth, Earth
  | Some Metal, Metal | Some Water, Water => true
  | _, _ => false
  end.

(** The symbol has some element in [ELEMENT_MAP]. *)
Definition recognised (s : string) : bool :=
  match record_get ELEMENT_MAP s with Some _ => true | None => false end.

(** [counts[e]]. *)
Definition counts_get (e : ElementType) (c : Counts.t) : Z :=
  match e with
  | Wood => Counts.wood c | Fire => Counts.fire c | Earth => Counts.earth c
  | Metal => Counts.metal c | Water => Counts.water c
  end.

(** The number of entries of a list that pass a test. *)
Definition how_many {A : Type} (f : A -> bool) (l : list A) : Z :=
  Z.of_nat (List.length (filter f l)).

(** The test of X12 on a Day Stem and a target. *)
Definition companion_iff_same_element (d t : string) : bool :=
  Bool.eqb
    (String.eqb (getTenGod d t) "비견" || String.eqb (getTenGod d t) "겁재")
    (existsb (fun e => has_element e d && has_element e t) ELEMENTS).

(** The number of days that [calculateDaeun] takes to the solar term,
    for a month of [dim] days and the day [birthDay]. *)
Definition days_to_term (dim birthDay : Z) : Z :=
  Z.abs ((dim + 31 - 2 * birthDay) / 2).

(* ------------------------------------------------------------------ *)
(** ** Properties *)

(** The double remainder brings every integer into [0..59]: it is the
    mathematical residue. *)
Lemma normalizedIndex_mod (p : Z) : normalizedIndex p = p mod 60.
Proof.
  unfold normalizedIndex.
  Z.to_euclidean_division_equations. lia.
Qed.

Lemma normalizedIndex_range (p : Z) : 0 <= normalizedIndex p < 60.
Proof. rewrite normalizedIndex_mod. apply Z.mod_pos_bound. lia. Qed.

(** Case analysis on an integer known to lie in a short interval. *)
Ltac enum_range x lo n :=
  let rec go k m :=
    lazymatch m with
    | O => exfalso; lia
    | S ?m' =>
        let H := fresh "Hx" in
        destruct (Z.eq_dec x k) as [H | H];
        [ subst x | go ltac:(eval vm_compute in (k + 1)) m' ]
    end
  in go lo n.

(** C2. Cycle round-trip: for every position [p] in [0..59], the index of
    the pair found at [p] is [p] again. *)
Theorem C2_cycle_round_trip (p : Z) :
  0 <= p <= 59 ->
  getGanZhiIndex (stem (getGanZhiFromIndex p))
                 (branch (getGanZhiFromIndex p)) = p.
Proof.
  intros Hp.
  enum_range p 0 60%nat; vm_compute; reflexivity.
Qed.

Lemma C2_cycle_round_trip_witness :
  0 <= 37 <= 59 /\
  getGanZhiIndex (stem (getGanZhiFromIndex 37))
                 (branch (getGanZhiFromIndex 37)) = 37.
Proof. split; [lia | apply (C2_cycle_round_trip 37); lia]. Defined.

(** C7. Cycle closure: for every integer [p], negative ones included,
    positions [p + 60] and [p] hold the same pair, the position being
    first normalised into [0..59]. *)
Theorem C7_cycle_closure (p : Z) :
  getGanZhiFromIndex (p + 60) = getGanZhiFromIndex p
  /\ normalizedIndex (p + 60) = normalizedIndex p
  /\ 0 <= normalizedIndex p <= 59.
Proof.
  assert (E : normalizedIndex (p + 60) = normalizedIndex p).
  { rewrite !normalizedIndex_mod.
    replace (p + 60) with (p + 1 * 60) by lia.
    apply Z.mod_add. lia. }
  pose proof (normalizedIndex_range p).
  unfold getGanZhiFromIndex. rewrite E.
  repeat split; lia.
Qed.

(* ------------------------------------------------------------------ *)
(** ** Counted loops that push *)

Section Loops.
Context {A : Type}.

Lemma push_loop_map {I : Type} (idx : list I) (body : I -> A)
    (acc : list A) :
  push_loop idx body acc = acc ++ map body idx.
Proof.
  unfold push_loop. revert acc.
  induction idx as [| i idx IH]; intros acc; simpl.
  - now rewrite app_nil_r.
  - rewrite IH, <- app_assoc. reflexivity.
Qed.

(** A loop nest pushing onto one accumulator fills it row by row. *)
Lemma nested_push_flat_map {I J : Type} (outer : list I) (inner : list J)
    (body : I -> J -> A) (acc : list A) :
  fold_left (fun l i => push_loop inner (body i) l) outer acc
  = acc ++ flat_map (fun i => map (body i) inner) outer.
Proof.
  revert acc. induction outer as [| i outer IH]; intros acc; simpl.
  - now rewrite app_nil_r.
  - rewrite IH, push_loop_map, <- app_assoc. reflexivity.
Qed.

(** Reading a table made of rows of one width. *)
Lemma nth_error_flat_map_rows {I : Type} (f : I -> list A) (w : nat)
    (rows : list I) :
  (forall i, List.length (f i) = w) ->
  forall r c, (c < w)%nat ->
    nth_error (flat_map f rows) (r * w + c)
    = match nth_error rows r with
      | Some i => nth_error (f i) c
      | None => None
      end.
Proof.
  intros Hw. induction rows as [| i rows IH]; intros r c Hc; simpl.
  - destruct r; simpl; now rewrite ?nth_error_nil.
  - destruct r as [| r]; simpl.
    + rewrite nth_error_app1 by (rewrite Hw; exact Hc). reflexivity.
    + rewrite nth_error_app2 by (rewrite Hw; lia).
      rewrite Hw.
      replace (w + r * w + c - w)%nat with (r * w + c)%nat by lia.
      apply IH, Hc.
Qed.

Lemma length_flat_map_rows {I : Type} (f : I -> list A) (w : nat)
    (rows : list I) :
  (forall i, List.length (f i) = w) ->
  List.length (flat_map f rows) = (List.length rows * w)%nat.
Proof.
  intros Hw. induction rows as [| i rows IH]; simpl; [reflexivity |].
  rewrite length_app, Hw, IH. reflexivity.
Qed.
End Loops.

Lemma length_counter (lo : Z) (n : nat) : List.length (counter lo n) = n.
Proof. unfold counter. now rewrite length_map, length_seq. Qed.

Lemma nth_error_counter (lo : Z) (n k : nat) :
  (k < n)%nat -> nth_error (counter lo n) k = Some (lo + Z.of_nat k).
Proof.
  intros Hk. unfold counter.
  rewrite nth_error_map, nth_error_seq.
  destruct (Nat.ltb_spec k n); [reflexivity | lia].
Qed.

Lemma In_counter (lo : Z) (n : nat) (x : Z) :
  In x (counter lo n) <-> lo <= x < lo + Z.of_nat n.
Proof.
  unfold counter. rewrite in_map_iff. split.
  - intros (k & <- & Hk). apply in_seq in Hk. lia.
  - intros Hx. exists (Z.to_nat (x - lo)). split; [lia |].
    apply in_seq. lia.
Qed.

(* ------------------------------------------------------------------ *)
(** ** The month cycle *)

Lemma calculateWolun_rows (Y : Z) :
  calculateWolun Y
  = flat_map (fun yo => map (wolunEntry (Y + yo)) (counter 1 12))
             (counter 0 60).
Proof.
  unfold calculateWolun.
  exact (nested_push_flat_map (counter 0 60) (counter 1 12)
           (fun yo => wolunEntry (Y + yo)) []).
Qed.

Lemma yearStemOrdinal_mod (y : Z) :
  yearStemOrdinal y = ((y - 1984) mod 60) mod 10.
Proof.
  unfold yearStemOrdinal, getGanZhiFromIndex; simpl.
  rewrite normalizedIndex_mod.
  pose proof (Z.mod_pos_bound (y - 1984) 60 ltac:(lia)) as Hg.
  rewrite Z.rem_mod_nonneg by lia.
  pose proof (Z.mod_pos_bound ((y - 1984) mod 60) 10 ltac:(lia)) as Hk.
  generalize dependent (((y - 1984) mod 60) mod 10). intros k Hk.
  enum_range k 0 10%nat; reflexivity.
Qed.

(** What one month entry holds, in terms of the Stem ordinal of its
    year. *)
Lemma wolunEntry_indices (y m : Z) :
  1 <= m <= 12 ->
  let start := spec_fiveTigersStart (yearStemOrdinal y) in
  arr_get GAN ((start + m - 1) mod 10) = Some (WolunEntry.stem (wolunEntry y m))
  /\ arr_get ZHI ((m + 1) mod 12) = Some (WolunEntry.branch (wolunEntry y m))
  /\ indexOf GAN (WolunEntry.stem (wolunEntry y m)) = (start + m - 1) mod 10
  /\ indexOf ZHI (WolunEntry.branch (wolunEntry y m)) = (m + 1) mod 12.
Proof.
  intros Hm. cbv zeta.
  unfold wolunEntry, yearStemOrdinal, getGanZhiFromIndex; simpl.
  fold (normalizedIndex (y - 1984)).
  pose proof (normalizedIndex_range (y - 1984)) as Hg.
  assert (Hk : 0 <= Z.rem (normalizedIndex (y - 1984)) 10 < 10)
    by (rewrite Z.rem_mod_nonneg by lia; apply Z.mod_pos_bound; lia).
  generalize dependent (Z.rem (normalizedIndex (y - 1984)) 10).
  intros k Hk.
  enum_range k 0 10%nat; enum_range m 1 12%nat;
    vm_compute; repeat split; reflexivity.
Qed.

(** Every entry of the month cycle comes from one round of the inner
    loop. *)
Lemma in_calculateWolun (Y : Z) (e : WolunEntry.t) :
  In e (calculateWolun Y) ->
  exists yo m, 0 <= yo <= 59 /\ 1 <= m <= 12 /\ e = wolunEntry (Y + yo) m.
Proof.
  rewrite calculateWolun_rows, in_flat_map.
  intros (yo & Hyo & He).
  apply in_map_iff in He. destruct He as (m & <- & Hm).
  apply In_counter in Hyo, Hm.
  exists yo, m. repeat split; lia.
Qed.

Lemma yearStemOrdinal_range (y : Z) : 0 <= yearStemOrdinal y <= 9.
Proof.
  rewrite yearStemOrdinal_mod.
  pose proof (Z.mod_pos_bound ((y - 1984) mod 60) 10 ltac:(lia)). lia.
Qed.

(** Closes a goal made of closed computations. *)
Ltac by_evaluation :=
  repeat split; vm_compute; first [reflexivity | discriminate | easy].

(** C3. Month cycle: for every birth year [Y], [calculateWolun Y] has
    exactly 720 entries; the entry at place [12 * yo + (m - 1)], for
    [yo] in [0..59] and [m] in [1..12], is the one of year [Y + yo] and
    month [m] (so the years [Y..Y+59] come in order, with twelve months
    [1..12] each), and it holds the Stem of index
    [(fiveTigersStart + m - 1) mod 10] and the Branch of index
    [(m + 1) mod 12], where [fiveTigersStart] follows from the Stem
    ordinal of the year by the Five Tigers map. *)
Theorem C3_wolun_month_cycle (Y yo m : Z) :
  0 <= yo <= 59 ->
  1 <= m <= 12 ->
  List.length (calculateWolun Y) = 720%nat
  /\ exists e,
       nth_error (calculateWolun Y) (Z.to_nat (12 * yo + (m - 1))) = Some e
       /\ WolunEntry.year e = Y + yo
       /\ WolunEntry.month e = m
       /\ let start := spec_fiveTigersStart (yearStemOrdinal (Y + yo)) in
          arr_get GAN ((start + m - 1) mod 10) = Some (WolunEntry.stem e)
          /\ arr_get ZHI ((m + 1) mod 12) = Some (WolunEntry.branch e)
          /\ indexOf GAN (WolunEntry.stem e) = (start + m - 1) mod 10
          /\ indexOf ZHI (WolunEntry.branch e) = (m + 1) mod 12.
Proof.
  intros Hyo Hm.
  assert (Hrow : forall i,
             List.length (map (wolunEntry (Y + i)) (counter 1 12)) = 12%nat)
    by (intros i; now rewrite length_map, length_counter).
  rewrite calculateWolun_rows. split.
  - rewrite (length_flat_map_rows _ 12%nat _ Hrow), length_counter.
    reflexivity.
  - exists (wolunEntry (Y + yo) m). split; [| split; [| split]].
    + replace (Z.to_nat (12 * yo + (m - 1)))
        with (Z.to_nat yo * 12 + Z.to_nat (m - 1))%nat by lia.
      rewrite (nth_error_flat_map_rows _ 12%nat _ Hrow) by lia.
      rewrite nth_error_counter by lia.
      rewrite nth_error_map, nth_error_counter by lia.
      cbn [option_map]. do 2 f_equal; lia.
    + reflexivity.
    + reflexivity.
    + apply wolunEntry_indices, Hm.
Qed.

Lemma C3_wolun_month_cycle_witness :
  List.length (calculateWolun 1990) = 720%nat
  /\ exists e,
       nth_error (calculateWolun 1990) (Z.to_nat (12 * 1 + (3 - 1))) = Some e
       /\ WolunEntry.year e = 1990 + 1
       /\ WolunEntry.month e = 3
       /\ let start := spec_fiveTigersStart (yearStemOrdinal (1990 + 1)) in
          arr_get GAN ((start + 3 - 1) mod 10) = Some (WolunEntry.stem e)
          /\ arr_get ZHI ((3 + 1) mod 12) = Some (WolunEntry.branch e)
          /\ indexOf GAN (WolunEntry.stem e) = (start + 3 - 1) mod 10
          /\ indexOf ZHI (WolunEntry.branch e) = (3 + 1) mod 12.
Proof. apply (C3_wolun_month_cycle 1990 1 3); lia. Defined.

(** C10. Every entry of [calculateWolun] pairs a Stem and a Branch whose
    indices have the same parity; the pair is one of the sixty of the
    cycle, and [getGanZhiIndex] finds it by its scan, without falling
    back to its default. *)
Theorem C10_wolun_pairs_in_cycle (Y : Z) (e : WolunEntry.t) :
  In e (calculateWolun Y) ->
  let gi := indexOf GAN (WolunEntry.stem e) in
  let zi := indexOf ZHI (WolunEntry.branch e) in
  let p := getGanZhiIndex (WolunEntry.stem e) (WolunEntry.branch e) in
  0 <= gi <= 9 /\ 0 <= zi <= 11
  /\ gi mod 2 = zi mod 2
  /\ scan_cycle (WolunEntry.stem e) (WolunEntry.branch e) 0 60 = Some p
  /\ 0 <= p <= 59
  /\ getGanZhiFromIndex p
     = {| stem := WolunEntry.stem e; branch := WolunEntry.branch e |}.
Proof.
  intros He.
  destruct (in_calculateWolun Y e He) as (yo & m & _ & Hm & ->).
  destruct (wolunEntry_indices (Y + yo) m Hm) as (Hs & Hb & _).
  pose proof (yearStemOrdinal_range (Y + yo)) as Hk.
  revert Hs Hb.
  generalize (WolunEntry.stem (wolunEntry (Y + yo) m)).
  generalize (WolunEntry.branch (wolunEntry (Y + yo) m)).
  generalize dependent (yearStemOrdinal (Y + yo)).
  intros k Hk b s Hs Hb.
  enum_range k 0 10%nat; enum_range m 1 12%nat;
    vm_compute in Hs, Hb;
    injection Hs as <-; injection Hb as <-;
    by_evaluation.
Qed.

Lemma C10_wolun_pairs_in_cycle_witness :
  let e := wolunEntry 1990 1 in
  let gi := indexOf GAN (WolunEntry.stem e) in
  let zi := indexOf ZHI (WolunEntry.branch e) in
  let p := getGanZhiIndex (WolunEntry.stem e) (WolunEntry.branch e) in
  In e (calculateWolun 1990)
  /\ 0 <= gi <= 9 /\ 0 <= zi <= 11
  /\ gi mod 2 = zi mod 2
  /\ scan_cycle (WolunEntry.stem e) (WolunEntry.branch e) 0 60 = Some p
  /\ 0 <= p <= 59
  /\ getGanZhiFromIndex p
     = {| stem := WolunEntry.stem e; branch := WolunEntry.branch e |}.
Proof.
  assert (H : In (wolunEntry 1990 1) (calculateWolun 1990))
    by (vm_compute; left; reflexivity).
  split; [exact H | apply (C10_wolun_pairs_in_cycle 1990 _ H)].
Defined.

(* ------------------------------------------------------------------ *)
(** ** The symbol tables as arrays *)

Lemma GAN_at (k : Z) :
  0 <= k <= 9 ->
  arr_get GAN k = Some (str_or_undef (arr_get GAN k))
  /\ indexOf GAN (str_or_undef (arr_get GAN k)) = k.
Proof. intros Hk. enum_range k 0 10%nat; by_evaluation. Qed.

Lemma ZHI_at (k : Z) :
  0 <= k <= 11 ->
  arr_get ZHI k = Some (str_or_undef (arr_get ZHI k))
  /\ indexOf ZHI (str_or_undef (arr_get ZHI k)) = k.
Proof. intros Hk. enum_range k 0 12%nat; by_evaluation. Qed.

(** Membership in a symbol table, by its position. *)
Lemma In_GAN_indexOf (s : string) :
  In s GAN -> 0 <= indexOf GAN s <= 9 /\ arr_get GAN (indexOf GAN s) = Some s.
Proof.
  unfold GAN. simpl.
  intros H; repeat (destruct H as [<- | H]; [by_evaluation |]); contradiction.
Qed.

Lemma In_ZHI_indexOf (s : string) :
  In s ZHI -> 0 <= indexOf ZHI s <= 11 /\ arr_get ZHI (indexOf ZHI s) = Some s.
Proof.
  unfold ZHI. simpl.
  intros H; repeat (destruct H as [<- | H]; [by_evaluation |]); contradiction.
Qed.

(* ------------------------------------------------------------------ *)
(** ** The year cycle *)

Lemma calculateSaeun_map (Y : Z) :
  calculateSaeun Y = map (saeunEntry Y) (counter 1 110).
Proof. unfold calculateSaeun. now rewrite push_loop_map. Qed.

(** The position formula of the specification, read with the
    mathematical residue, is the residue itself. *)
Lemma spec_position_mod (x : Z) : (x mod 60 + 60) mod 60 = x mod 60.
Proof.
  replace (x mod 60 + 60) with (x mod 60 + 1 * 60) by lia.
  rewrite Z.mod_add by lia. apply Z.mod_mod. lia.
Qed.

Lemma saeunEntry_pair (Y a : Z) :
  let e := saeunEntry Y a in
  let pos := ((SaeunEntry.year e - 1984) mod 60 + 60) mod 60 in
  {| stem := SaeunEntry.stem e; branch := SaeunEntry.branch e |}
  = getGanZhiFromIndex pos
  /\ arr_get GAN (pos mod 10) = Some (SaeunEntry.stem e)
  /\ arr_get ZHI (pos mod 12) = Some (SaeunEntry.branch e).
Proof.
  cbv zeta. unfold saeunEntry, getGanZhiFromIndex.
  cbn [SaeunEntry.year SaeunEntry.stem SaeunEntry.branch].
  fold (normalizedIndex (Y + a - 1 - 1984)).
  rewrite spec_position_mod, !normalizedIndex_mod, Z.mod_mod by lia.
  pose proof (Z.mod_pos_bound (Y + a - 1 - 1984) 60 ltac:(lia)) as Hg.
  set (g := (Y + a - 1 - 1984) mod 60) in *.
  rewrite !Z.rem_mod_nonneg by lia.
  pose proof (Z.mod_pos_bound g 10 ltac:(lia)).
  pose proof (Z.mod_pos_bound g 12 ltac:(lia)).
  split; [reflexivity |].
  split; [apply GAN_at | apply ZHI_at]; lia.
Qed.

(** C5. Year cycle: for every birth year [Y], [calculateSaeun Y] has
    exactly 110 entries; the entry at place [a - 1], for each age [a]
    from 1 to 110, carries age [a] and calendar year [Y + a - 1], and its
    Stem and Branch are the pair at cycle position
    [((year - 1984) mod 60 + 60) mod 60]. In particular an entry for the
    calendar year 1984 has Stem index 0 (甲) and Branch index 0 (子). *)
Theorem C5_saeun_year_cycle (Y a : Z) :
  1 <= a <= 110 ->
  List.length (calculateSaeun Y) = 110%nat
  /\ exists e,
       nth_error (calculateSaeun Y) (Z.to_nat (a - 1)) = Some e
       /\ SaeunEntry.age e = a
       /\ SaeunEntry.year e = Y + a - 1
       /\ (let pos := ((SaeunEntry.year e - 1984) mod 60 + 60) mod 60 in
           {| stem := SaeunEntry.stem e; branch := SaeunEntry.branch e |}
           = getGanZhiFromIndex pos
           /\ arr_get GAN (pos mod 10) = Some (SaeunEntry.stem e)
           /\ arr_get ZHI (pos mod 12) = Some (SaeunEntry.branch e))
       /\ (SaeunEntry.year e = 1984 ->
           SaeunEntry.stem e = "甲" /\ SaeunEntry.branch e = "子"
           /\ indexOf GAN (SaeunEntry.stem e) = 0
           /\ indexOf ZHI (SaeunEntry.branch e) = 0).
Proof.
  intros Ha. rewrite calculateSaeun_map. split.
  - now rewrite length_map, length_counter.
  - exists (saeunEntry Y a). repeat apply conj.
    + rewrite nth_error_map, nth_error_counter by lia.
      cbn [option_map]. do 2 f_equal. lia.
    + reflexivity.
    + reflexivity.
    + apply saeunEntry_pair.
    + apply saeunEntry_pair.
    + apply saeunEntry_pair.
    + unfold saeunEntry.
      cbn [SaeunEntry.year SaeunEntry.stem SaeunEntry.branch].
      intros ->. by_evaluation.
Qed.

Lemma C5_saeun_year_cycle_witness :
  1 <= 5 <= 110
  /\ List.length (calculateSaeun 1980) = 110%nat
  /\ exists e,
       nth_error (calculateSaeun 1980) (Z.to_nat (5 - 1)) = Some e
       /\ SaeunEntry.age e = 5
       /\ SaeunEntry.year e = 1984
       /\ SaeunEntry.stem e = "甲" /\ SaeunEntry.branch e = "子".
Proof.
  assert (Ha : 1 <= 5 <= 110) by lia.
  destruct (C5_saeun_year_cycle 1980 5 Ha)
    as (Hlen & e & Hnth & Hage & Hyear & _ & H1984).
  split; [exact Ha |]. split; [exact Hlen |].
  exists e. split; [exact Hnth |]. split; [exact Hage |].
  split; [exact Hyear |].
  destruct (H1984 Hyear) as (Hs & Hb & _). split; assumption.
Defined.

(* ------------------------------------------------------------------ *)
(** ** The decade cycle *)

Lemma daeun_map (birthYear birthMonth birthDay : Z) (gender : Gender)
    (monthStem monthBranch yearStem : string) :
  daeun (calculateDaeun birthYear birthMonth birthDay gender
           monthStem monthBranch yearStem)
  = map (daeunEntry birthYear (isForward yearStem gender)
           (getGanZhiIndex monthStem monthBranch)
           (daeunStartAge birthMonth birthDay))
        (counter 0 13).
Proof. unfold calculateDaeun. cbn [daeun]. now rewrite push_loop_map. Qed.

(** For a month of the calendar the starting age is a number, and it is
    not negative. *)
Lemma daeunStartAge_number (birthMonth birthDay : Z) :
  1 <= birthMonth <= 12 ->
  exists q, daeunStartAge birthMonth birthDay = Some q /\ (0 <= q)%Q.
Proof.
  intros Hm. unfold daeunStartAge.
  assert (Hd : exists d, arr_get daysInMonth (birthMonth - 1) = Some d).
  { enum_range birthMonth 1 12%nat; vm_compute; eexists; reflexivity. }
  destruct Hd as [d ->].
  cbn [Num.of_undef Num.of_Z Num.div Num.sub Num.add Num.round Num.mul
       Num.lift1 Num.lift2 option_map].
  set (z := Qfloor (inject_Z d / inject_Z 2 - inject_Z birthDay
                    + inject_Z 15 + (1 # 2))).
  assert (Habs : exists n : Z,
             0 <= n /\
             (if Num.ltb0 (Some (inject_Z z)) then Num.abs (Some (inject_Z z))
              else Some (inject_Z z)) = Some (inject_Z n)).
  { cbn [Num.ltb0 Num.abs Num.lift1 option_map].
    destruct (Qle_bool 0 (inject_Z z)) eqn:E; cbn [negb].
    - exists z. split; [| reflexivity].
      apply Qle_bool_iff in E. unfold Qle in E. simpl in E. lia.
    - exists (Z.abs z). split; [lia |].
      unfold Qabs, inject_Z. reflexivity. }
  destruct Habs as (n & Hn & ->).
  cbn [Num.div Num.mul Num.round Num.lift1 Num.lift2 option_map].
  eexists. split; [reflexivity |].
  apply Qle_shift_div_l; [reflexivity |].
  set (x := (inject_Z n / inject_Z 3 * inject_Z 10 + (1 # 2))%Q).
  assert (Hx : (0 <= Qfloor x)%Z).
  { change 0%Z with (Qfloor 0). apply Qfloor_resp_le.
    subst x. unfold Qle; simpl. lia. }
  clearbody x. unfold Qle; simpl. lia.
Qed.

(** For a day of the calendar the starting age is at most ten years. *)
Lemma daeunStartAge_bound (birthMonth birthDay : Z) :
  1 <= birthMonth <= 12 ->
  1 <= birthDay <= 31 ->
  exists q, daeunStartAge birthMonth birthDay = Some q
            /\ (0 <= q)%Q /\ (q <= 10)%Q.
Proof.
  intros Hm Hd.
  enum_range birthMonth 1 12%nat; enum_range birthDay 1 31%nat;
    (eexists; split; [vm_compute; reflexivity | split; discriminate]).
Qed.

(** C4. Decade cycle: for every birth date (a month in [1..12], a day in
    [1..31]), either gender and any Month and Year pillar,
    [calculateDaeun] returns exactly 13 entries. With [monthPosition]
    the position of the Month pillar in the cycle and [startAge] the
    starting age it computes (a number between 0 and 10), entry [i]
    holds the pair at position [monthPosition + i + 1] when the walk is
    forward and [monthPosition - i - 1] when backward; it starts at age
    [startAge] if [i = 0] and [floor startAge + 10 i] otherwise, ends at
    age [floor startAge + 10 (i + 1) - 1], and starts in calendar year
    [birthYear + floor (its starting age)]. *)
Theorem C4_daeun_entries (birthYear birthMonth birthDay : Z)
    (gender : Gender) (monthStem monthBranch yearStem : string) (i : Z) :
  1 <= birthMonth <= 12 ->
  1 <= birthDay <= 31 ->
  0 <= i <= 12 ->
  let r := calculateDaeun birthYear birthMonth birthDay gender
             monthStem monthBranch yearStem in
  let monthPosition := getGanZhiIndex monthStem monthBranch in
  List.length (daeun r) = 13%nat
  /\ (exists q, startAge r = Some q /\ (0 <= q)%Q /\ (q <= 10)%Q)
  /\ exists e,
       nth_error (daeun r) (Z.to_nat i) = Some e
       /\ {| stem := DaeunEntry.stem e; branch := DaeunEntry.branch e |}
          = getGanZhiFromIndex
              (if isForward yearStem gender then monthPosition + i + 1
               else monthPosition - i - 1)
       /\ DaeunEntry.startAge e
          = (if i =? 0 then startAge r
             else Num.add (Num.floor (startAge r)) (Num.of_Z (i * 10)))
       /\ DaeunEntry.endAge e
          = Num.sub (Num.add (Num.floor (startAge r))
                             (Num.of_Z ((i + 1) * 10)))
                    (Num.of_Z 1)
       /\ DaeunEntry.startYear e
          = Num.add (Num.of_Z birthYear)
                    (Num.floor (DaeunEntry.startAge e)).
Proof.
  intros Hm Hd Hi r monthPosition. subst r.
  rewrite daeun_map. split; [| split].
  - now rewrite length_map, length_counter.
  - apply daeunStartAge_bound; assumption.
  - eexists. split.
    + rewrite nth_error_map, nth_error_counter by lia.
      cbn [option_map].
      replace (0 + Z.of_nat (Z.to_nat i)) with i by lia.
      reflexivity.
    + unfold daeunEntry, calculateDaeun.
      cbn [DaeunEntry.stem DaeunEntry.branch DaeunEntry.startAge
           DaeunEntry.endAge DaeunEntry.startYear startAge].
      fold monthPosition.
      destruct (getGanZhiFromIndex _) as [s b].
      repeat split; reflexivity.
Qed.

Lemma C4_daeun_entries_witness :
  let r := calculateDaeun 1990 5 15 male "丙" "寅" "庚" in
  (1 <= 5 <= 12 /\ 1 <= 15 <= 31 /\ 0 <= 2 <= 12)
  /\ List.length (daeun r) = 13%nat
  /\ startAge r = Some (53 # 10)
  /\ exists e,
       nth_error (daeun r) (Z.to_nat 2) = Some e
       /\ {| stem := DaeunEntry.stem e; branch := DaeunEntry.branch e |}
          = getGanZhiFromIndex (getGanZhiIndex "丙" "寅" + 2 + 1)
       /\ DaeunEntry.startAge e = Num.of_Z 25
       /\ DaeunEntry.endAge e = Num.of_Z 34
       /\ DaeunEntry.startYear e = Num.of_Z 2015.
Proof.
  assert (Hm : 1 <= 5 <= 12) by lia.
  assert (Hd : 1 <= 15 <= 31) by lia.
  assert (Hi : 0 <= 2 <= 12) by lia.
  destruct (C4_daeun_entries 1990 5 15 male "丙" "寅" "庚" 2 Hm Hd Hi)
    as (Hlen & _ & e & Hnth & Hpair & Hstart & Hend & Hyear).
  split; [lia |].
  split; [exact Hlen |]. split; [reflexivity |].
  exists e. split; [exact Hnth |]. split; [exact Hpair |].
  rewrite Hyear, Hend, Hstart. repeat split; reflexivity.
Defined.

Lemma daeunPair_entry (birthYear : Z) (forward : bool) (m : Z)
    (age : Num.t) (i : Z) :
  daeunPair (daeunEntry birthYear forward m age i)
  = getGanZhiFromIndex (if forward then m + i + 1 else m - i - 1).
Proof.
  unfold daeunPair, daeunEntry. cbn [DaeunEntry.stem DaeunEntry.branch].
  now destruct (getGanZhiFromIndex _).
Qed.

Lemma rem2_is_zero_even (k : Z) : (Z.rem k 2 =? 0) = Z.even k.
Proof.
  destruct (Z.even k) eqn:E.
  - apply Z.even_spec in E. destruct E as [h ->].
    apply Z.eqb_eq. Z.to_euclidean_division_equations. lia.
  - rewrite <- Z.negb_odd in E. apply negb_false_iff, Z.odd_spec in E.
    destruct E as [h ->].
    apply Z.eqb_neq. Z.to_euclidean_division_equations. lia.
Qed.

(** The direction test of the source is the parity rule, whatever the
    index. *)
Lemma isForward_parity (yearStem : string) (gender : Gender) :
  isForward yearStem gender = true
  <-> (Z.Even (indexOf GAN yearStem) /\ gender = male)
      \/ (Z.Odd (indexOf GAN yearStem) /\ gender = female).
Proof.
  unfold isForward.
  rewrite rem2_is_zero_even, <- Z.even_spec, <- Z.odd_spec, <- Z.negb_even.
  destruct (Z.even (indexOf GAN yearStem)), gender; cbn;
    intuition discriminate.
Qed.

(** C6. Decade direction: for a Year Stem of the table, of ordinal [k],
    and either gender, [calculateDaeun] walks the cycle forward from the
    Month pillar exactly when [k] is even and the subject is male, or
    [k] is odd and the subject is female; otherwise it walks backward. *)
Theorem C6_daeun_direction (yearStem : string) (gender : Gender)
    (birthYear birthMonth birthDay : Z) (monthStem monthBranch : string) :
  In yearStem GAN ->
  let k := indexOf GAN yearStem in
  let forwardRule :=
    (Z.Even k /\ gender = male) \/ (Z.Odd k /\ gender = female) in
  let m := getGanZhiIndex monthStem monthBranch in
  let pairs :=
    map daeunPair
        (daeun (calculateDaeun birthYear birthMonth birthDay gender
                  monthStem monthBranch yearStem)) in
  0 <= k <= 9
  /\ (isForward yearStem gender = true <-> forwardRule)
  /\ (forwardRule ->
      pairs = map (fun i => getGanZhiFromIndex (m + i + 1)) (counter 0 13))
  /\ (~ forwardRule ->
      pairs = map (fun i => getGanZhiFromIndex (m - i - 1)) (counter 0 13)).
Proof.
  intros Hin k forwardRule m pairs.
  pose proof (isForward_parity yearStem gender) as Hrule.
  fold k in Hrule. fold forwardRule in Hrule.
  assert (Hpairs : pairs
            = map (fun i => getGanZhiFromIndex
                              (if isForward yearStem gender
                               then m + i + 1 else m - i - 1))
                  (counter 0 13)).
  { subst pairs. rewrite daeun_map, map_map.
    apply map_ext. intros i. apply daeunPair_entry. }
  split; [apply In_GAN_indexOf, Hin |].
  split; [exact Hrule |].
  split; intros H; rewrite Hpairs.
  - apply Hrule in H. now rewrite H.
  - destruct (isForward yearStem gender); [| reflexivity].
    exfalso. apply H, Hrule. reflexivity.
Qed.

Lemma C6_daeun_direction_witness :
  In "乙" GAN
  /\ isForward "甲" male = true
  /\ isForward "甲" female = false
  /\ isForward "乙" male = false
  /\ map daeunPair (daeun (calculateDaeun 1985 3 9 male "己" "卯" "乙"))
     = map (fun i => getGanZhiFromIndex (getGanZhiIndex "己" "卯" - i - 1))
           (counter 0 13).
Proof.
  assert (Hin : In "乙" GAN) by (vm_compute; tauto).
  split; [exact Hin |].
  do 3 (split; [reflexivity |]).
  apply (C6_daeun_direction "乙" male 1985 3 9 "己" "卯" Hin).
  intros [[HE _] | [_ Hg]]; [| discriminate].
  change (indexOf GAN "乙") with 1 in HE. destruct HE as [x Hx]. lia.
Defined.

(* ------------------------------------------------------------------ *)
(** ** The indexer's scan *)

Lemma scan_cycle_None (s b : string) (n : nat) :
  forall i,
    (forall j, i <= j < i + Z.of_nat n -> matches_at s b j = false) ->
    scan_cycle s b i n = None.
Proof.
  induction n as [| n IH]; intros i Hall; [reflexivity |].
  cbn [scan_cycle].
  rewrite (Hall i) by lia.
  apply IH. intros j Hj. apply Hall. lia.
Qed.

Lemma matches_at_in_cycle (s b : string) (i : Z) :
  0 <= i <= 59 -> matches_at s b i = true -> in_cycle s b.
Proof.
  intros Hi Hm. unfold matches_at in Hm.
  apply andb_true_iff in Hm. destruct Hm as [Hs Hb].
  apply String.eqb_eq in Hs, Hb.
  assert (H10 : 0 <= Z.rem i 10 <= 9)
    by (Z.to_euclidean_division_equations; lia).
  assert (H12 : 0 <= Z.rem i 12 <= 11)
    by (Z.to_euclidean_division_equations; lia).
  exists i. split; [exact Hi |]. split.
  - rewrite <- Hs. apply GAN_at, H10.
  - rewrite <- Hb. apply ZHI_at, H12.
Qed.

Lemma not_in_cycle_scan (s b : string) :
  ~ in_cycle s b -> scan_cycle s b 0 60 = None.
Proof.
  intros Hno. apply scan_cycle_None. intros j Hj.
  destruct (matches_at s b j) eqn:E; [| reflexivity].
  exfalso. apply Hno, (matches_at_in_cycle s b j); [lia | exact E].
Qed.

Lemma in_cycle_tables (s b : string) :
  in_cycle s b ->
  In s GAN /\ In b ZHI /\ (indexOf GAN s) mod 2 = (indexOf ZHI b) mod 2.
Proof.
  intros (i & Hi & Hs & Hb).
  assert (H10 : 0 <= Z.rem i 10 <= 9)
    by (Z.to_euclidean_division_equations; lia).
  assert (H12 : 0 <= Z.rem i 12 <= 11)
    by (Z.to_euclidean_division_equations; lia).
  destruct (GAN_at _ H10) as [Es Eis]. destruct (ZHI_at _ H12) as [Eb Eib].
  rewrite Hs in Eis. rewrite Hb in Eib. cbn [str_or_undef] in Eis, Eib.
  unfold arr_get in Hs, Hb.
  destruct (Z.rem i 10 <? 0); [discriminate |].
  destruct (Z.rem i 12 <? 0); [discriminate |].
  apply nth_error_In in Hs, Hb.
  repeat split; [exact Hs | exact Hb |].
  rewrite Eis, Eib. Z.to_euclidean_division_equations. lia.
Qed.

(** C9. Indexer fallback: when the pair [(s, b)] stands at no position
    of the 60-term cycle, in particular when [s] and [b] are symbols of
    the tables whose ordinals differ in parity, or when one of them is
    not a symbol of its table, the scan of [getGanZhiIndex] finds
    nothing and the function returns the position 0; its result is
    always a position, never an error. *)
Theorem C9_indexer_fallback (s b : string) :
  ~ in_cycle s b \/ parity_mismatch s b \/ ~ In s GAN \/ ~ In b ZHI ->
  ~ in_cycle s b
  /\ scan_cycle s b 0 60 = None
  /\ getGanZhiIndex s b = 0.
Proof.
  intros H.
  assert (Hno : ~ in_cycle s b).
  { intros Hc.
    destruct (in_cycle_tables s b Hc) as (Hs & Hb & Hpar).
    destruct H as [H | [(_ & _ & H) | [H | H]]];
      [exact (H Hc) | exact (H Hpar) | exact (H Hs) | exact (H Hb)]. }
  split; [exact Hno |].
  pose proof (not_in_cycle_scan s b Hno) as Hscan.
  split; [exact Hscan |].
  unfold getGanZhiIndex. now rewrite Hscan.
Qed.

Lemma C9_indexer_fallback_witness :
  (parity_mismatch "甲" "丑" /\ getGanZhiIndex "甲" "丑" = 0)
  /\ (~ In "木" GAN /\ getGanZhiIndex "木" "子" = 0).
Proof.
  assert (Hp : parity_mismatch "甲" "丑").
  { unfold parity_mismatch. split; [simpl; tauto |].
    split; [simpl; tauto | vm_compute; discriminate]. }
  assert (Hn : ~ In "木" GAN).
  { simpl. intros H.
    repeat (destruct H as [H | H]; [discriminate H |]). exact H. }
  split; (split; [assumption |]).
  - apply (C9_indexer_fallback "甲" "丑"). right. left. exact Hp.
  - apply (C9_indexer_fallback "木" "子"). right. right. left. exact Hn.
Defined.

(* ------------------------------------------------------------------ *)
(** ** The Ten-God resolver and the pillar builder *)

Lemma getTenGod_same (s : string) : getTenGod s s = "비견".
Proof. unfold getTenGod. now rewrite String.eqb_refl. Qed.

(** C8. Ten-God symmetry-breaking: for every Stem [s] of the table, the
    resolver called with the Day Master as its own target returns the
    Companion/Peer label 비견, which is also the entry of the table on
    its diagonal, and never the Self label 일원. *)
Theorem C8_tenGod_same_stem (s : string) :
  In s GAN ->
  getTenGod s s = "비견"
  /\ getTenGod s s <> "일원"
  /\ exists row,
       arr_get TEN_GODS_MAP (indexOf GAN s) = Some row
       /\ arr_get row (indexOf GAN s) = Some "비견".
Proof.
  intros Hs. rewrite getTenGod_same.
  split; [reflexivity |]. split; [discriminate |].
  revert Hs. unfold GAN at 1. simpl In.
  intros Hs.
  repeat (destruct Hs as [<- | Hs];
          [eexists; split; vm_compute; reflexivity |]).
  contradiction.
Qed.

Lemma C8_tenGod_same_stem_witness :
  In "丙" GAN
  /\ getTenGod "丙" "丙" = "비견"
  /\ getTenGod "丙" "丙" <> "일원"
  /\ exists row,
       arr_get TEN_GODS_MAP (indexOf GAN "丙") = Some row
       /\ arr_get row (indexOf GAN "丙") = Some "비견".
Proof.
  assert (Hin : In "丙" GAN) by (simpl; tauto).
  split; [exact Hin | apply (C8_tenGod_same_stem "丙" Hin)].
Defined.

(** The Stem slot of [createPillar] tests the value of the Stem, not the
    slot it is built for: a Stem equal to the Day Master is labelled
    일원 whichever pillar it belongs to. *)
Lemma createPillar_same_stem (d b : string) :
  Pillar.stemTenGod (createPillar d d b) = "일원".
Proof. unfold createPillar. cbn [Pillar.stemTenGod]. now rewrite String.eqb_refl. Qed.

(** For Stems of the table, the pillar builder never yields the label
    비견 in a Stem slot: the only entry 비견 of a row of the table is on
    its diagonal, which the test on the value of the Stem keeps away. *)
Lemma createPillar_stem_never_peer (d s b : string) :
  In d GAN -> In s GAN ->
  Pillar.stemTenGod (createPillar d s b) <> "비견".
Proof.
  unfold GAN. simpl In. intros Hd Hs.
  repeat (destruct Hd as [<- | Hd]; [| try contradiction]);
    repeat (destruct Hs as [<- | Hs]; [| try contradiction]);
    vm_compute; discriminate.
Qed.

(** C1. The claim reserves the Self label 일원 for the Stem slot of the
    Day pillar, and expects the label 비견 in the Stem slot of another
    pillar whose Stem has the value of the Day Master. On the well-formed
    chart 甲子 / 丙寅 / 甲午 / 庚午 the Year pillar built by
    [createPillar] carries 일원, not 비견, although the resolver itself
    answers 비견 for these two Stems. *)
Theorem C1_year_pillar_labelled_self :
  validEightChar chart_same_year_stem
  /\ yearStem chart_same_year_stem = dayStem chart_same_year_stem
  /\ Pillar.stemTenGod (yearPillar (analyzeSaju_pillars chart_same_year_stem))
     = "일원"
  /\ Pillar.stemTenGod (yearPillar (analyzeSaju_pillars chart_same_year_stem))
     <> "비견"
  /\ getTenGod (dayStem chart_same_year_stem) (yearStem chart_same_year_stem)
     = "비견".
Proof.
  split; [unfold validEightChar; simpl; tauto |].
  split; [reflexivity |].
  split; [reflexivity |].
  split; [vm_compute; discriminate | reflexivity].
Qed.

(* ------------------------------------------------------------------ *)
(** ** More on the cycle indexer *)

(** The scan stops at the first position that passes its test. *)
Lemma scan_cycle_Some (s b : string) (n : nat) :
  forall i j,
    scan_cycle s b i n = Some j ->
    i <= j < i + Z.of_nat n
    /\ matches_at s b j = true
    /\ forall k, i <= k < j -> matches_at s b k = false.
Proof.
  induction n as [| n IH]; intros i j H; [discriminate |].
  cbn [scan_cycle] in H.
  destruct (matches_at s b i) eqn:E.
  - injection H as <-. repeat split; try lia. exact E.
  - apply IH in H. destruct H as (Hr & Hm & Hfirst).
    repeat split; try lia; [exact Hm |].
    intros k Hk. destruct (Z.eq_dec k i) as [-> | Hne]; [exact E |].
    apply Hfirst. lia.
Qed.

Lemma in_cycle_matches (s b : string) :
  in_cycle s b -> exists i, 0 <= i <= 59 /\ matches_at s b i = true.
Proof.
  intros (i & Hi & Hs & Hb). exists i. split; [exact Hi |].
  unfold matches_at. rewrite Hs, Hb. cbn [str_or_undef].
  now rewrite !String.eqb_refl.
Qed.

Lemma scan_cycle_finds (s b : string) (n : nat) :
  forall i j,
    i <= j < i + Z.of_nat n -> matches_at s b j = true ->
    exists j', scan_cycle s b i n = Some j'.
Proof.
  induction n as [| n IH]; intros i j Hj Hm; [lia |].
  cbn [scan_cycle].
  destruct (matches_at s b i) eqn:E; [eexists; reflexivity |].
  apply (IH (i + 1) j); [| exact Hm].
  destruct (Z.eq_dec j i) as [-> | Hne]; [congruence | lia].
Qed.

(** The pair at a position of [0..59], and where the scan finds it. *)
Lemma pair_at_position (g : Z) :
  0 <= g <= 59 ->
  let gz := getGanZhiFromIndex g in
  arr_get GAN (g mod 10) = Some (stem gz)
  /\ arr_get ZHI (g mod 12) = Some (branch gz)
  /\ indexOf GAN (stem gz) = g mod 10
  /\ indexOf ZHI (branch gz) = g mod 12
  /\ scan_cycle (stem gz) (branch gz) 0 60 = Some g.
Proof.
  intros Hg. enum_range g 0 60%nat; by_evaluation.
Qed.

Lemma getGanZhiFromIndex_mod (p : Z) :
  getGanZhiFromIndex p = getGanZhiFromIndex (p mod 60).
Proof.
  unfold getGanZhiFromIndex.
  rewrite !normalizedIndex_mod, Z.mod_mod by lia. reflexivity.
Qed.

Lemma mod60_mod10 (p : Z) : (p mod 60) mod 10 = p mod 10.
Proof. Z.to_euclidean_division_equations. lia. Qed.

Lemma mod60_mod12 (p : Z) : (p mod 60) mod 12 = p mod 12.
Proof. Z.to_euclidean_division_equations. lia. Qed.

(** The pair at any integer position. *)
Lemma getGanZhiFromIndex_ordinals (p : Z) :
  let gz := getGanZhiFromIndex p in
  arr_get GAN (p mod 10) = Some (stem gz)
  /\ arr_get ZHI (p mod 12) = Some (branch gz)
  /\ indexOf GAN (stem gz) = p mod 10
  /\ indexOf ZHI (branch gz) = p mod 12
  /\ In (stem gz) GAN /\ In (branch gz) ZHI
  /\ (indexOf GAN (stem gz)) mod 2 = (indexOf ZHI (branch gz)) mod 2
  /\ in_cycle (stem gz) (branch gz).
Proof.
  cbv zeta. rewrite getGanZhiFromIndex_mod.
  pose proof (Z.mod_pos_bound p 60 ltac:(lia)) as Hg.
  destruct (pair_at_position (p mod 60) ltac:(lia)) as (Hs & Hb & His & Hib & _).
  rewrite mod60_mod10 in Hs, His. rewrite mod60_mod12 in Hb, Hib.
  assert (Hc : in_cycle (stem (getGanZhiFromIndex (p mod 60)))
                        (branch (getGanZhiFromIndex (p mod 60)))).
  { exists (p mod 60). rewrite !Z.rem_mod_nonneg by lia.
    rewrite mod60_mod10, mod60_mod12. repeat split; try lia; assumption. }
  destruct (in_cycle_tables _ _ Hc) as (HinS & HinB & Hpar).
  repeat split; assumption.
Qed.

(** X1. Position to pair is total: for every integer [p], negative or
    not, [getGanZhiFromIndex p] holds the Stem of ordinal [p mod 10] and
    the Branch of ordinal [p mod 12]; both are symbols of the tables,
    their ordinals have the same parity, and the pair is one of the
    cycle. *)
Theorem X1_pair_at_every_integer (p : Z) :
  let gz := getGanZhiFromIndex p in
  arr_get GAN (p mod 10) = Some (stem gz)
  /\ arr_get ZHI (p mod 12) = Some (branch gz)
  /\ indexOf GAN (stem gz) = p mod 10
  /\ indexOf ZHI (branch gz) = p mod 12
  /\ In (stem gz) GAN /\ In (branch gz) ZHI
  /\ (indexOf GAN (stem gz)) mod 2 = (indexOf ZHI (branch gz)) mod 2
  /\ in_cycle (stem gz) (branch gz).
Proof. exact (getGanZhiFromIndex_ordinals p). Qed.

Lemma getGanZhiFromIndex_inj (p q : Z) :
  getGanZhiFromIndex p = getGanZhiFromIndex q -> p mod 60 = q mod 60.
Proof.
  intros H.
  rewrite (getGanZhiFromIndex_mod p), (getGanZhiFromIndex_mod q) in H.
  pose proof (Z.mod_pos_bound p 60 ltac:(lia)) as Hp.
  pose proof (Z.mod_pos_bound q 60 ltac:(lia)) as Hq.
  destruct (pair_at_position (p mod 60) ltac:(lia)) as (_ & _ & _ & _ & Sp).
  destruct (pair_at_position (q mod 60) ltac:(lia)) as (_ & _ & _ & _ & Sq).
  rewrite H in Sp. rewrite Sp in Sq. now injection Sq.
Qed.

(** X2. The cycle has period exactly 60: two integers give the same pair
    if and only if they are congruent modulo 60. *)
Theorem X2_pair_at_period_exact (p q : Z) :
  getGanZhiFromIndex p = getGanZhiFromIndex q <-> p mod 60 = q mod 60.
Proof.
  split; [apply getGanZhiFromIndex_inj |].
  intros H. rewrite (getGanZhiFromIndex_mod p), (getGanZhiFromIndex_mod q).
  now rewrite H.
Qed.

(** X3. Pair to position and back: for a Stem of ordinal [g] and a Branch
    of ordinal [z] of the same parity, [getGanZhiIndex] returns the
    position [(6 g - 5 z) mod 60], the only one of [0..59] congruent to
    [g] modulo 10 and to [z] modulo 12, and [getGanZhiFromIndex] gives
    the pair back from it. *)
Theorem X3_index_of_valid_pair (s b : string) :
  In s GAN -> In b ZHI ->
  (indexOf GAN s) mod 2 = (indexOf ZHI b) mod 2 ->
  let i := getGanZhiIndex s b in
  0 <= i <= 59
  /\ i = (6 * indexOf GAN s - 5 * indexOf ZHI b) mod 60
  /\ i mod 10 = indexOf GAN s
  /\ i mod 12 = indexOf ZHI b
  /\ getGanZhiFromIndex i = {| stem := s; branch := b |}.
Proof.
  unfold GAN at 1, ZHI at 1. simpl In. intros Hs Hb.
  repeat (destruct Hs as [<- | Hs]; [| try contradiction]);
    repeat (destruct Hb as [<- | Hb]; [| try contradiction]);
    vm_compute; intros Hpar; try discriminate Hpar;
    repeat split; first [reflexivity | discriminate].
Qed.

Lemma X3_index_of_valid_pair_witness :
  In "丙" GAN /\ In "戌" ZHI
  /\ getGanZhiIndex "丙" "戌" = 22
  /\ getGanZhiFromIndex (getGanZhiIndex "丙" "戌")
     = {| stem := "丙"; branch := "戌" |}.
Proof.
  assert (Hs : In "丙" GAN) by (simpl; tauto).
  assert (Hb : In "戌" ZHI) by (simpl; tauto).
  assert (Hp : (indexOf GAN "丙") mod 2 = (indexOf ZHI "戌") mod 2)
    by reflexivity.
  destruct (X3_index_of_valid_pair "丙" "戌" Hs Hb Hp)
    as (_ & Hi & _ & _ & Hback).
  split; [exact Hs |]. split; [exact Hb |].
  split; [rewrite Hi; reflexivity | exact Hback].
Defined.

(** X4. The result of [getGanZhiIndex] is always a position of
    [0..59], whatever the two strings; and it is 0 in two cases only:
    the pair is 甲子, or the pair stands nowhere in the cycle. The
    position 0 alone does not tell a missing pair from 甲子. *)
Theorem X4_index_range_and_zero (s b : string) :
  0 <= getGanZhiIndex s b <= 59
  /\ (getGanZhiIndex s b = 0
      <-> (s = "甲" /\ b = "子") \/ ~ in_cycle s b).
Proof.
  unfold getGanZhiIndex.
  destruct (scan_cycle s b 0 60) as [j |] eqn:E.
  - destruct (scan_cycle_Some s b 60 0 j E) as (Hj & Hm & _).
    split; [lia |]. split.
    + intros ->. left. unfold matches_at in Hm.
      apply andb_true_iff in Hm. destruct Hm as [Hs Hb].
      apply String.eqb_eq in Hs, Hb. now split.
    + intros [[-> ->] | Hno].
      * vm_compute in E. now injection E.
      * exfalso. apply Hno.
        apply (matches_at_in_cycle s b j); [lia | exact Hm].
  - split; [lia |]. split; [| reflexivity].
    intros _. right. intros Hc.
    destruct (in_cycle_matches s b Hc) as (i & Hi & Hm).
    destruct (scan_cycle_finds s b 60 0 i ltac:(lia) Hm) as [j' Hj'].
    congruence.
Qed.

(* ------------------------------------------------------------------ *)
(** ** Symbols that are in no table *)

Lemma indexOf_from_notin (a : list string) (x : string) :
  ~ In x a -> forall pos, indexOf_from a x pos = -1.
Proof.
  induction a as [| y a IH]; intros Hx pos; [reflexivity |].
  cbn [indexOf_from].
  destruct (String.eqb_spec y x) as [-> | _].
  - exfalso. apply Hx. now left.
  - apply IH. intros H. apply Hx. now right.
Qed.

Lemma indexOf_notin (a : list string) (x : string) :
  ~ In x a -> indexOf a x = -1.
Proof. intros H. now apply indexOf_from_notin. Qed.

Lemma includes_In (a : list string) (x : string) :
  includes a x = true <-> In x a.
Proof.
  unfold includes. rewrite existsb_exists. split.
  - intros (y & Hy & E). apply String.eqb_eq in E. now subst.
  - intros H. exists x. split; [exact H | apply String.eqb_refl].
Qed.

Lemma In_string_dec (x : string) (a : list string) : {In x a} + {~ In x a}.
Proof. apply in_dec, string_dec. Qed.

(** Case analysis on a symbol known to be in a table written out. *)
Ltac each_symbol H :=
  simpl In in H;
  repeat (destruct H as [<- | H]; [| try contradiction]).

(* ------------------------------------------------------------------ *)
(** ** The Korean labels *)

(** X5. [getKoreanChar] reads the label at the position of the symbol:
    the [k]-th Stem has the [k]-th entry of [GAN_KOR] and the [k]-th
    Branch the [k]-th entry of [ZHI_KOR] (no symbol is in both tables).
    It returns the empty string exactly for the strings that are in
    neither table. *)
Theorem X5_korean_label_by_position (s : string) :
  (forall k, arr_get GAN k = Some s ->
             arr_get GAN_KOR k = Some (getKoreanChar s))
  /\ (forall k, arr_get ZHI k = Some s ->
                arr_get ZHI_KOR k = Some (getKoreanChar s))
  /\ (getKoreanChar s = "" <-> ~ In s GAN /\ ~ In s ZHI).
Proof.
  assert (Hrange : forall (a : list string) k x,
             arr_get a k = Some x ->
             0 <= k < Z.of_nat (List.length a)).
  { intros a k x H. unfold arr_get in H.
    destruct (k <? 0) eqn:E; [discriminate |].
    apply Z.ltb_ge in E.
    assert (Z.to_nat k < List.length a)%nat
      by (apply nth_error_Some; congruence).
    lia. }
  split; [| split].
  - intros k H. pose proof (Hrange _ _ _ H) as Hk. cbn in Hk.
    enum_range k 0 10%nat; vm_compute in H; injection H as <-; reflexivity.
  - intros k H. pose proof (Hrange _ _ _ H) as Hk. cbn in Hk.
    enum_range k 0 12%nat; vm_compute in H; injection H as <-; reflexivity.
  - split.
    + intros E. split; intros H; each_symbol H; vm_compute in E; discriminate E.
    + intros [Hg Hz]. unfold getKoreanChar.
      now rewrite (indexOf_notin _ _ Hg), (indexOf_notin _ _ Hz).
Qed.

Lemma X5_korean_label_by_position_witness :
  arr_get GAN 3 = Some "丁"
  /\ arr_get GAN_KOR 3 = Some (getKoreanChar "丁")
  /\ arr_get ZHI 10 = Some "戌"
  /\ arr_get ZHI_KOR 10 = Some (getKoreanChar "戌").
Proof.
  assert (Hs : arr_get GAN 3 = Some "丁") by reflexivity.
  assert (Hb : arr_get ZHI 10 = Some "戌") by reflexivity.
  split; [exact Hs |].
  split; [apply (proj1 (X5_korean_label_by_position "丁") 3 Hs) |].
  split; [exact Hb |].
  apply (proj1 (proj2 (X5_korean_label_by_position "戌")) 10 Hb).
Defined.

(** X6. The Korean label tells the symbol, with one exception: the Stem
    辛 and the Branch 申 are both read 신. Two symbols of the tables with
    the same label are equal or are these two. *)
Theorem X6_korean_label_collision (a b : string) :
  is_symbol a -> is_symbol b ->
  getKoreanChar a = getKoreanChar b ->
  a = b \/ (a = "辛" /\ b = "申") \/ (a = "申" /\ b = "辛").
Proof.
  intros Ha Hb E.
  assert (Hall : forallb (fun x => forallb (same_label_only_if x) (GAN ++ ZHI))
                         (GAN ++ ZHI) = true) by (vm_compute; reflexivity).
  assert (Hin : forall x, is_symbol x -> In x (GAN ++ ZHI))
    by (intros x Hx; apply in_or_app; exact Hx).
  rewrite forallb_forall in Hall.
  specialize (Hall a (Hin a Ha)). rewrite forallb_forall in Hall.
  specialize (Hall b (Hin b Hb)). unfold same_label_only_if in Hall.
  rewrite E, String.eqb_refl in Hall. cbn [implb] in Hall.
  apply orb_true_iff in Hall. destruct Hall as [Hall | Hall].
  - apply orb_true_iff in Hall. destruct Hall as [Hall | Hall].
    + left. now apply String.eqb_eq.
    + right. left. apply andb_true_iff in Hall.
      destruct Hall as [H1 H2]. apply String.eqb_eq in H1, H2. now split.
  - right. right. apply andb_true_iff in Hall.
    destruct Hall as [H1 H2]. apply String.eqb_eq in H1, H2. now split.
Qed.

Lemma X6_korean_label_collision_witness :
  is_symbol "辛" /\ is_symbol "申"
  /\ getKoreanChar "辛" = getKoreanChar "申"
  /\ ("辛" = "申" \/ ("辛" = "辛" /\ "申" = "申") \/ ("辛" = "申" /\ "申" = "辛")).
Proof.
  assert (Ha : is_symbol "辛") by (left; simpl; tauto).
  assert (Hb : is_symbol "申") by (right; simpl; tauto).
  assert (E : getKoreanChar "辛" = getKoreanChar "申") by reflexivity.
  split; [exact Ha |]. split; [exact Hb |]. split; [exact E |].
  apply (X6_korean_label_collision "辛" "申" Ha Hb E).
Defined.

(* ------------------------------------------------------------------ *)
(** ** The Ten-God resolver on every input *)

Lemma In_TEN_GODS_nonempty (x : string) : In x TEN_GODS -> x <> "".
Proof. intros H; each_symbol H; discriminate. Qed.

Lemma getTenGod_symbols (d t : string) :
  In d GAN -> is_symbol t -> In (getTenGod d t) TEN_GODS.
Proof.
  intros Hd Ht.
  assert (Hall : forallb (fun x => forallb
                   (fun y => includes TEN_GODS (getTenGod x y)) (GAN ++ ZHI))
                   GAN = true) by (vm_compute; reflexivity).
  rewrite forallb_forall in Hall. specialize (Hall d Hd).
  rewrite forallb_forall in Hall.
  apply includes_In, Hall, in_or_app, Ht.
Qed.

(** The result of the resolver on any two strings. *)
Lemma getTenGod_result (d t : string) :
  (getTenGod d t = "" \/ In (getTenGod d t) TEN_GODS)
  /\ (getTenGod d t = ""
      <-> d <> t /\ (~ In d GAN \/ ~ is_symbol t))
  /\ (d = t -> getTenGod d t = "비견").
Proof.
  assert (Hempty : d <> t -> ~ In d GAN \/ ~ is_symbol t ->
                   getTenGod d t = "").
  { intros Hne H. unfold getTenGod.
    destruct (String.eqb_spec d t) as [E | _]; [contradiction |].
    destruct H as [Hd | Ht].
    - now rewrite (indexOf_notin _ _ Hd).
    - assert (Hz : includes ZHI t = false).
      { destruct (includes ZHI t) eqn:E; [| reflexivity].
        exfalso. apply Ht. right. now apply includes_In. }
      rewrite Hz, (indexOf_notin GAN t) by (intros H; apply Ht; now left).
      now rewrite orb_true_r. }
  assert (Hsame : d = t -> getTenGod d t = "비견")
    by (intros ->; apply getTenGod_same).
  assert (Hcases : d = t \/ (d <> t /\ (~ In d GAN \/ ~ is_symbol t))
                   \/ (d <> t /\ In d GAN /\ is_symbol t)).
  { destruct (string_dec d t) as [E | Hne]; [now left | right].
    destruct (In_string_dec d GAN) as [Hd | Hd]; [| left; tauto].
    destruct (In_string_dec t GAN) as [Hg | Hg]; [right; unfold is_symbol; tauto |].
    destruct (In_string_dec t ZHI) as [Hz | Hz]; [right; unfold is_symbol; tauto |].
    left. unfold is_symbol. tauto. }
  split; [| split; [| exact Hsame]].
  - destruct Hcases as [E | [[Hne H] | (Hne & Hd & Ht)]].
    + right. rewrite (Hsame E). simpl. tauto.
    + left. now apply Hempty.
    + right. now apply getTenGod_symbols.
  - split.
    + intros E. destruct Hcases as [E' | [H | (Hne & Hd & Ht)]].
      * rewrite (Hsame E') in E. discriminate.
      * exact H.
      * exfalso. apply (In_TEN_GODS_nonempty _ (getTenGod_symbols d t Hd Ht) E).
    + intros [Hne H]. now apply Hempty.
Qed.

(** X7. Whatever its two strings, [getTenGod] returns one of the ten
    labels or the empty string, and never anything else. It is the empty
    string exactly when the two strings differ and the Day Stem is not a
    Stem, or the target is neither a Stem nor a Branch; two equal
    strings give 비견 even when they are no symbol at all, since the
    equality is tested first. *)
Theorem X7_tenGod_result (d t : string) :
  (getTenGod d t = "" \/ In (getTenGod d t) TEN_GODS)
  /\ (getTenGod d t = ""
      <-> d <> t /\ (~ In d GAN \/ ~ is_symbol t))
  /\ (d = t -> getTenGod d t = "비견").
Proof. exact (getTenGod_result d t). Qed.

(** X8. A Branch is resolved through the Stem of its main qi: for a Day
    Stem of the table and a Branch, [getTenGod] answers what it answers
    for the Stem that [BRANCH_MAIN_QI] gives to the Branch. *)
Theorem X8_tenGod_branch_main_qi (d b : string) :
  In d GAN -> In b ZHI ->
  exists m, record_get BRANCH_MAIN_QI b = Some m
            /\ In m GAN
            /\ getTenGod d b = getTenGod d m.
Proof.
  intros Hd Hb. each_symbol Hb;
    (eexists; split; [reflexivity |]; split; [simpl; tauto |]);
    each_symbol Hd; reflexivity.
Qed.

Lemma X8_tenGod_branch_main_qi_witness :
  In "庚" GAN /\ In "卯" ZHI
  /\ record_get BRANCH_MAIN_QI "卯" = Some "乙"
  /\ getTenGod "庚" "卯" = getTenGod "庚" "乙".
Proof.
  assert (Hd : In "庚" GAN) by (simpl; tauto).
  assert (Hb : In "卯" ZHI) by (simpl; tauto).
  destruct (X8_tenGod_branch_main_qi "庚" "卯" Hd Hb) as (m & Hm & _ & E).
  split; [exact Hd |]. split; [exact Hb |]. split; [reflexivity |].
  cbn in Hm. injection Hm as <-. exact E.
Defined.

(** X9. The table in closed form. For the Stems of ordinals [i] and [j],
    with [i / 2] and [j / 2] their places in the cycle of the five
    elements, the label is the entry of [TEN_GODS] at
    [2 * ((j / 2 - i / 2) mod 5) + (i + j) mod 2]: the step from the
    element of the Day Stem to that of the target picks the pair of
    labels, and the polarity picks the label of the pair. *)
Theorem X9_tenGod_closed_form (i j : Z) :
  0 <= i <= 9 -> 0 <= j <= 9 ->
  exists d t,
    arr_get GAN i = Some d /\ arr_get GAN j = Some t
    /\ arr_get TEN_GODS (2 * ((j / 2 - i / 2) mod 5) + (i + j) mod 2)
       = Some (getTenGod d t).
Proof.
  intros Hi Hj.
  enum_range i 0 10%nat; enum_range j 0 10%nat;
    (do 2 eexists; repeat split; reflexivity).
Qed.

Lemma X9_tenGod_closed_form_witness :
  0 <= 6 <= 9 /\ 0 <= 1 <= 9
  /\ arr_get TEN_GODS (2 * ((1 / 2 - 6 / 2) mod 5) + (6 + 1) mod 2)
     = Some (getTenGod "庚" "乙").
Proof.
  assert (Hi : 0 <= 6 <= 9) by lia.
  assert (Hj : 0 <= 1 <= 9) by lia.
  destruct (X9_tenGod_closed_form 6 1 Hi Hj) as (d & t & Hd & Ht & E).
  cbn in Hd, Ht. injection Hd as <-. injection Ht as <-.
  split; [exact Hi |]. split; [exact Hj | exact E].
Defined.

(** X10. For a Day Stem of the table, the ten target Stems get ten
    different labels, and a target Stem gets ten different labels from
    the ten Day Stems: every row and every column of the table holds
    each label once. *)
Theorem X10_tenGod_rows_columns (d t1 t2 : string) :
  In d GAN -> In t1 GAN -> In t2 GAN ->
  (getTenGod d t1 = getTenGod d t2 -> t1 = t2)
  /\ (getTenGod t1 d = getTenGod t2 d -> t1 = t2).
Proof.
  intros Hd H1 H2.
  assert (Hall : forallb (fun x => forallb (fun y =>
                   forallb (tenGod_separates x y) GAN) GAN) GAN = true)
    by (vm_compute; reflexivity).
  rewrite forallb_forall in Hall. specialize (Hall d Hd).
  rewrite forallb_forall in Hall. specialize (Hall t1 H1).
  rewrite forallb_forall in Hall. specialize (Hall t2 H2).
  unfold tenGod_separates in Hall. apply andb_true_iff in Hall.
  destruct Hall as [Hrow Hcol].
  split; intros E.
  - rewrite E, String.eqb_refl in Hrow. now apply String.eqb_eq.
  - rewrite E, String.eqb_refl in Hcol. now apply String.eqb_eq.
Qed.

Lemma X10_tenGod_rows_columns_witness :
  In "戊" GAN /\ In "壬" GAN /\ In "癸" GAN
  /\ getTenGod "戊" "壬" <> getTenGod "戊" "癸"
  /\ getTenGod "壬" "戊" <> getTenGod "癸" "戊".
Proof.
  assert (Hd : In "戊" GAN) by (simpl; tauto).
  assert (H1 : In "壬" GAN) by (simpl; tauto).
  assert (H2 : In "癸" GAN) by (simpl; tauto).
  destruct (X10_tenGod_rows_columns "戊" "壬" "癸" Hd H1 H2) as [Hrow Hcol].
  split; [exact Hd |]. split; [exact H1 |]. split; [exact H2 |].
  split; intros E; [apply Hrow in E | apply Hcol in E]; discriminate E.
Defined.

(* ------------------------------------------------------------------ *)
(** ** The elements of the symbols *)

Lemma record_get_notin {V : Type} (r : list (string * V)) (key : string) :
  ~ In key (map fst r) -> record_get r key = None.
Proof.
  induction r as [| [k v] r IH]; intros H; [reflexivity |].
  cbn [record_get]. destruct (String.eqb_spec k key) as [-> | _].
  - exfalso. apply H. now left.
  - apply IH. intros Hin. apply H. now right.
Qed.

Lemma recognised_symbol (s : string) : recognised s = true <-> is_symbol s.
Proof.
  split.
  - intros H. destruct (In_string_dec s (map fst ELEMENT_MAP)) as [Hin | Hout].
    + each_symbol Hin; unfold is_symbol; simpl; tauto.
    + unfold recognised in H. rewrite (record_get_notin _ _ Hout) in H.
      discriminate.
  - intros [H | H]; each_symbol H; reflexivity.
Qed.



(** X12. The two companion labels mark the element of the Day Stem: for
    a Day Stem and a target of the tables, Stem or Branch, the label is
    비견 or 겁재 exactly when [ELEMENT_MAP] gives both the same
    element. *)
Theorem X12_companions_same_element (d t : string) :
  In d GAN -> is_symbol t ->
  (getTenGod d t = "비견" \/ getTenGod d t = "겁재")
  <-> record_get ELEMENT_MAP d = record_get ELEMENT_MAP t.
Proof.
  intros Hd Ht.
  assert (Hall : forallb (fun x => forallb (companion_iff_same_element x)
                                           (GAN ++ ZHI)) GAN = true)
    by (vm_compute; reflexivity).
  rewrite forallb_forall in Hall. specialize (Hall d Hd).
  rewrite forallb_forall in Hall.
  specialize (Hall t (in_or_app _ _ _ Ht)).
  unfold companion_iff_same_element in Hall. apply Bool.eqb_prop in Hall.
  assert (Hd' : recognised d = true) by (apply recognised_symbol; now left).
  assert (Ht' : recognised t = true) by (apply recognised_symbol; exact Ht).
  unfold recognised in Hd', Ht'.
  assert (Hsame : existsb (fun e => has_element e d && has_element e t)
                          ELEMENTS = true
                  <-> record_get ELEMENT_MAP d = record_get ELEMENT_MAP t).
  { unfold has_element, ELEMENTS. cbn [existsb].
    destruct (record_get ELEMENT_MAP d) as [ed |]; [| discriminate].
    destruct (record_get ELEMENT_MAP t) as [et |]; [| discriminate].
    destruct ed, et; cbn; split; intros H; congruence. }
  rewrite <- Hsame, <- Hall, orb_true_iff, !String.eqb_eq. reflexivity.
Qed.

Lemma X12_companions_same_element_witness :
  In "丙" GAN /\ is_symbol "午"
  /\ record_get ELEMENT_MAP "丙" = record_get ELEMENT_MAP "午"
  /\ (getTenGod "丙" "午" = "비견" \/ getTenGod "丙" "午" = "겁재").
Proof.
  assert (Hd : In "丙" GAN) by (simpl; tauto).
  assert (Ht : is_symbol "午") by (right; simpl; tauto).
  assert (He : record_get ELEMENT_MAP "丙" = record_get ELEMENT_MAP "午")
    by reflexivity.
  split; [exact Hd |]. split; [exact Ht |]. split; [exact He |].
  apply (proj2 (X12_companions_same_element "丙" "午" Hd Ht) He).
Defined.

(* ------------------------------------------------------------------ *)
(** ** The element tally *)

Lemma count_char_get (e : ElementType) (c : Counts.t) (s : string) :
  counts_get e (count_char c s)
  = counts_get e c + (if has_element e s then 1 else 0).
Proof.
  unfold count_char, has_element.
  destruct (record_get ELEMENT_MAP s) as [e' |]; [| destruct e; cbn; lia].
  destruct e, e'; cbn; lia.
Qed.

Lemma tally_get (e : ElementType) (l : list string) :
  forall c, counts_get e (fold_left count_char l c)
            = counts_get e c + how_many (has_element e) l.
Proof.
  unfold how_many.
  induction l as [| s l IH]; intros c; cbn [fold_left filter].
  - cbn. lia.
  - rewrite IH, count_char_get.
    destruct (has_element e s); cbn [List.length]; lia.
Qed.

Lemma count_char_total (c : Counts.t) (s : string) :
  Counts.total (count_char c s)
  = Counts.total c + (if recognised s then 1 else 0).
Proof.
  unfold count_char, recognised, Counts.total.
  destruct (record_get ELEMENT_MAP s) as [e |]; [| lia].
  destruct e; cbn; lia.
Qed.

Lemma tally_total (l : list string) :
  forall c, Counts.total (fold_left count_char l c)
            = Counts.total c + how_many recognised l.
Proof.
  unfold how_many.
  induction l as [| s l IH]; intros c; cbn [fold_left filter].
  - cbn. lia.
  - rewrite IH, count_char_total.
    destruct (recognised s); cbn [List.length]; lia.
Qed.

(** X13. The tally counts, for each element, the symbols of the chart
    that have it, and passes over a string that has none: the five
    counts add up to the number of recognised symbols, at most 8, and to
    exactly 8 for a well-formed chart. *)
Theorem X13_element_tally (c : EightChar) :
  (forall e, counts_get e (analyzeSaju_counts c)
             = how_many (has_element e) (allChars c))
  /\ Counts.total (analyzeSaju_counts c) = how_many recognised (allChars c)
  /\ 0 <= Counts.total (analyzeSaju_counts c) <= 8
  /\ (validEightChar c -> Counts.total (analyzeSaju_counts c) = 8).
Proof.
  unfold analyzeSaju_counts.
  assert (Htot : Counts.total (fold_left count_char (allChars c) Counts.zero)
                 = how_many recognised (allChars c))
    by (rewrite tally_total; cbn; lia).
  assert (Hle : 0 <= how_many recognised (allChars c) <= 8).
  { unfold how_many.
    pose proof (filter_length_le recognised (allChars c)) as H.
    cbn [allChars List.length] in H. lia. }
  split; [| split; [exact Htot | split; [lia |]]].
  - intros e. rewrite tally_get. destruct e; cbn; lia.
  - intros (H1 & H2 & H3 & H4 & H5 & H6 & H7 & H8).
    rewrite Htot. unfold how_many, allChars. cbn [filter].
    assert (R : forall s, is_symbol s -> recognised s = true)
      by (intros s; apply recognised_symbol).
    rewrite !R by (unfold is_symbol; tauto). reflexivity.
Qed.

Lemma X13_element_tally_witness :
  validEightChar chart_same_year_stem
  /\ analyzeSaju_counts chart_same_year_stem = Counts.mk 3 3 0 1 1
  /\ Counts.total (analyzeSaju_counts chart_same_year_stem) = 8.
Proof.
  assert (Hv : validEightChar chart_same_year_stem)
    by (unfold validEightChar; simpl; tauto).
  destruct (X13_element_tally chart_same_year_stem) as (_ & _ & _ & H8).
  split; [exact Hv |]. split; [reflexivity | exact (H8 Hv)].
Defined.

(* ------------------------------------------------------------------ *)
(** ** The pillar builder on every input *)

Lemma In_TEN_GODS_not_self (x : string) : In x TEN_GODS -> x <> "일원".
Proof. intros H; each_symbol H; discriminate. Qed.

Lemma getTenGod_not_self (d t : string) : getTenGod d t <> "일원".
Proof.
  destruct (getTenGod_result d t) as ([E | Hin] & _).
  - rewrite E. discriminate.
  - now apply In_TEN_GODS_not_self.
Qed.

(** X14. The resolver never answers 일원. So, whatever the strings, the
    Stem slot of a pillar carries 일원 exactly when its Stem has the
    value of the Day Stem, and otherwise the answer of the resolver; the
    Branch slot never carries 일원. *)
Theorem X14_pillar_self_label (d s b : string) :
  getTenGod d s <> "일원"
  /\ (Pillar.stemTenGod (createPillar d s b) = "일원" <-> s = d)
  /\ (s <> d -> Pillar.stemTenGod (createPillar d s b) = getTenGod d s)
  /\ Pillar.branchTenGod (createPillar d s b) <> "일원".
Proof.
  unfold createPillar. cbn [Pillar.stemTenGod Pillar.branchTenGod].
  split; [apply getTenGod_not_self |].
  destruct (String.eqb_spec s d) as [E | Hne].
  - repeat split; try tauto; try apply getTenGod_not_self.
  - repeat split; try tauto; try apply getTenGod_not_self.
    intros H. exfalso. exact (getTenGod_not_self d s H).
Qed.



(* ------------------------------------------------------------------ *)
(** ** More on the decade cycle *)

Lemma arr_get_out_of_range {A : Type} (a : list A) (k : Z) :
  k < 0 \/ Z.of_nat (List.length a) <= k -> arr_get a k = None.
Proof.
  intros H. unfold arr_get.
  destruct (k <? 0) eqn:E; [reflexivity |].
  apply Z.ltb_ge in E. apply nth_error_None. lia.
Qed.

Lemma in_daeun (birthYear birthMonth birthDay : Z) (gender : Gender)
    (monthStem monthBranch yearStem : string) (e : DaeunEntry.t) :
  In e (daeun (calculateDaeun birthYear birthMonth birthDay gender
                 monthStem monthBranch yearStem)) ->
  exists i, 0 <= i <= 12
            /\ e = daeunEntry birthYear (isForward yearStem gender)
                     (getGanZhiIndex monthStem monthBranch)
                     (daeunStartAge birthMonth birthDay) i.
Proof.
  rewrite daeun_map, in_map_iff. intros (i & <- & Hi).
  apply In_counter in Hi. exists i. split; [lia | reflexivity].
Qed.

(** X16. A month outside [1..12] has no entry in the table of days, and
    the starting age is [NaN]. [calculateDaeun] still returns its 13
    entries, with their Stems and Branches, but every age and every
    starting year in them is [NaN]. *)
Theorem X16_daeun_month_out_of_range (birthYear birthMonth birthDay : Z)
    (gender : Gender) (monthStem monthBranch yearStem : string) :
  birthMonth < 1 \/ 12 < birthMonth ->
  let r := calculateDaeun birthYear birthMonth birthDay gender
             monthStem monthBranch yearStem in
  startAge r = Num.NaN
  /\ List.length (daeun r) = 13%nat
  /\ forall e, In e (daeun r) ->
       DaeunEntry.startAge e = Num.NaN
       /\ DaeunEntry.endAge e = Num.NaN
       /\ DaeunEntry.startYear e = Num.NaN
       /\ in_cycle (DaeunEntry.stem e) (DaeunEntry.branch e).
Proof.
  intros Hm r.
  assert (Hnan : daeunStartAge birthMonth birthDay = None).
  { unfold daeunStartAge.
    rewrite arr_get_out_of_range by (cbn; lia). reflexivity. }
  split; [exact Hnan |]. split.
  - subst r. now rewrite daeun_map, length_map, length_counter.
  - intros e He. apply in_daeun in He. destruct He as (i & Hi & ->).
    rewrite Hnan. unfold daeunEntry.
    cbn [DaeunEntry.startAge DaeunEntry.endAge DaeunEntry.startYear
         DaeunEntry.stem DaeunEntry.branch].
    repeat split.
    + now destruct (i =? 0).
    + now destruct (i =? 0).
    + apply getGanZhiFromIndex_ordinals.
Qed.

Lemma X16_daeun_month_out_of_range_witness :
  let r := calculateDaeun 1990 13 15 female "丙" "寅" "庚" in
  (13 < 1 \/ 12 < 13)
  /\ startAge r = Num.NaN
  /\ List.length (daeun r) = 13%nat
  /\ forall e, In e (daeun r) ->
       DaeunEntry.startAge e = Num.NaN
       /\ DaeunEntry.endAge e = Num.NaN
       /\ DaeunEntry.startYear e = Num.NaN
       /\ in_cycle (DaeunEntry.stem e) (DaeunEntry.branch e).
Proof.
  assert (Hm : 13 < 1 \/ 12 < 13) by lia.
  split; [exact Hm |].
  apply (X16_daeun_month_out_of_range 1990 13 15 female "丙" "寅" "庚" Hm).
Defined.

(** Equations between rationals built from integers. *)
Ltac q_arith :=
  unfold Qeq, Qle, Qlt, Qminus, Qplus, Qopp, Qdiv, Qmult, Qinv, inject_Z;
  cbn [Qnum Qden]; lia.

Lemma Qfloor_frac (n : Z) (d : positive) (x : Q) :
  x == n # d -> Qfloor x = n / Z.pos d.
Proof. intros H. rewrite (Qfloor_comp _ _ H). reflexivity. Qed.

(** The starting age, computed in integers. *)
Lemma daeunStartAge_tenths (birthMonth birthDay dim : Z) :
  arr_get daysInMonth (birthMonth - 1) = Some dim ->
  let tenths := (20 * days_to_term dim birthDay + 3) / 6 in
  daeunStartAge birthMonth birthDay
  = Some (inject_Z tenths / inject_Z 10)%Q
  /\ 0 <= tenths.
Proof.
  intros Hd. cbv zeta. unfold daeunStartAge. rewrite Hd.
  cbn [Num.of_undef Num.of_Z Num.div Num.sub Num.add Num.round Num.mul
       Num.lift1 Num.lift2 option_map].
  assert (Hz : Qfloor (inject_Z dim / inject_Z 2 - inject_Z birthDay
                       + inject_Z 15 + (1 # 2))
               = (dim + 31 - 2 * birthDay) / 2).
  { apply (Qfloor_frac _ 2). q_arith. }
  rewrite Hz. set (z := (dim + 31 - 2 * birthDay) / 2).
  assert (Habs : (if Num.ltb0 (Some (inject_Z z))
                  then Num.abs (Some (inject_Z z))
                  else Some (inject_Z z)) = Some (inject_Z (Z.abs z))).
  { cbn [Num.ltb0 Num.abs Num.lift1 option_map].
    destruct (Qle_bool 0 (inject_Z z)) eqn:E; cbn [negb].
    - apply Qle_bool_iff in E. unfold Qle in E. simpl in E.
      f_equal. f_equal. lia.
    - reflexivity. }
  rewrite Habs. subst z.
  change (Z.abs ((dim + 31 - 2 * birthDay) / 2))
    with (days_to_term dim birthDay).
  cbn [Num.of_Z Num.div Num.mul Num.round Num.lift1 Num.lift2 option_map].
  assert (Ht : Qfloor (inject_Z (days_to_term dim birthDay) / inject_Z 3
                       * inject_Z 10 + (1 # 2))
               = (20 * days_to_term dim birthDay + 3) / 6).
  { apply (Qfloor_frac _ 6). q_arith. }
  rewrite Ht. split; [reflexivity |].
  assert (0 <= days_to_term dim birthDay) by (unfold days_to_term; lia).
  apply Z.div_pos; lia.
Qed.

(** X17. The starting age in integers. For a month of [dim] days in the
    table and any integer day, with
    [n = | floor ((dim + 31 - 2 * birthDay) / 2) |] the days to the
    term, the starting age is [floor ((20 n + 3) / 6)] tenths of a year:
    a number, never negative, also for a day past the middle of the
    month, where the distance is taken in absolute value. *)
Theorem X17_daeun_start_age_closed_form (birthMonth birthDay dim : Z) :
  arr_get daysInMonth (birthMonth - 1) = Some dim ->
  let tenths := (20 * days_to_term dim birthDay + 3) / 6 in
  daeunStartAge birthMonth birthDay
  = Some (inject_Z tenths / inject_Z 10)%Q
  /\ 0 <= tenths.
Proof. exact (daeunStartAge_tenths birthMonth birthDay dim). Qed.

Lemma X17_daeun_start_age_closed_form_witness :
  arr_get daysInMonth (1 - 1) = Some 31
  /\ days_to_term 31 31 = 0
  /\ days_to_term 31 1 = 30
  /\ daeunStartAge 1 1 = Some (inject_Z 100 / inject_Z 10)%Q.
Proof.
  assert (Hd : arr_get daysInMonth (1 - 1) = Some 31) by reflexivity.
  split; [exact Hd |]. split; [reflexivity |]. split; [reflexivity |].
  apply (X17_daeun_start_age_closed_form 1 1 31 Hd).
Defined.

Lemma daeunStartAge_in_month (birthMonth birthDay : Z) :
  1 <= birthMonth <= 12 ->
  exists tenths, 0 <= tenths
    /\ daeunStartAge birthMonth birthDay
       = Some (inject_Z tenths / inject_Z 10)%Q.
Proof.
  intros Hm.
  assert (Hd : exists d, arr_get daysInMonth (birthMonth - 1) = Some d).
  { enum_range birthMonth 1 12%nat; vm_compute; eexists; reflexivity. }
  destruct Hd as [dim Hd].
  destruct (daeunStartAge_tenths birthMonth birthDay dim Hd) as [E Hpos].
  eexists. split; [exact Hpos | exact E].
Qed.

(** X18. The decades tile the ages. For a month of the calendar (and any
    day), with [f] the floor of the starting age, entry [i] ends at age
    [f + 10 i + 9] and starts in the year [birthYear + f + 10 i]; after
    the first, which starts at the starting age itself, entry [i]
    starts at age [f + 10 i]. So each decade ends one year before the
    next starts, and only the first can be shorter than ten years. *)
Theorem X18_daeun_decades_tile (birthYear birthMonth birthDay : Z)
    (gender : Gender) (monthStem monthBranch yearStem : string) (i : Z) :
  1 <= birthMonth <= 12 ->
  0 <= i <= 12 ->
  let r := calculateDaeun birthYear birthMonth birthDay gender
             monthStem monthBranch yearStem in
  exists q e a b y,
    startAge r = Some q
    /\ nth_error (daeun r) (Z.to_nat i) = Some e
    /\ DaeunEntry.startAge e = Some a
    /\ DaeunEntry.endAge e = Some b
    /\ DaeunEntry.startYear e = Some y
    /\ (if i =? 0 then a = q else a == inject_Z (Qfloor q + 10 * i))%Q
    /\ (b == inject_Z (Qfloor q + 10 * i + 9))%Q
    /\ (y == inject_Z (birthYear + Qfloor q + 10 * i))%Q.
Proof.
  intros Hm Hi r. subst r.
  destruct (daeunStartAge_in_month birthMonth birthDay Hm) as (t & _ & Hq).
  rewrite daeun_map. unfold calculateDaeun. cbn [startAge].
  rewrite Hq. set (q := (inject_Z t / inject_Z 10)%Q).
  assert (Hnth : nth_error
            (map (daeunEntry birthYear (isForward yearStem gender)
                    (getGanZhiIndex monthStem monthBranch) (Some q))
                 (counter 0 13)) (Z.to_nat i)
          = Some (daeunEntry birthYear (isForward yearStem gender)
                    (getGanZhiIndex monthStem monthBranch) (Some q) i)).
  { rewrite nth_error_map, nth_error_counter by lia.
    cbn [option_map].
    replace (0 + Z.of_nat (Z.to_nat i)) with i by lia. reflexivity. }
  assert (Hfl : Qfloor (inject_Z (Qfloor q) + inject_Z (i * 10))
                = Qfloor q + 10 * i).
  { rewrite <- (Qfloor_Z (Qfloor q + 10 * i)). apply Qfloor_comp. q_arith. }
  exists q, (daeunEntry birthYear (isForward yearStem gender)
               (getGanZhiIndex monthStem monthBranch) (Some q) i).
  rewrite Hnth. unfold daeunEntry.
  cbn [DaeunEntry.startAge DaeunEntry.endAge DaeunEntry.startYear].
  destruct (Z.eqb_spec i 0) as [-> | Hne];
    cbn [Num.add Num.sub Num.floor Num.of_Z Num.lift1 Num.lift2 option_map];
    do 3 eexists;
    (split; [reflexivity |]); (split; [reflexivity |]);
    (split; [reflexivity |]); (split; [reflexivity |]);
    (split; [reflexivity |]).
  - split; [reflexivity |]. split; q_arith.
  - split; [q_arith |]. split; [q_arith |]. rewrite Hfl. q_arith.
Qed.

Lemma X18_daeun_decades_tile_witness :
  let r := calculateDaeun 1990 5 15 male "丙" "寅" "庚" in
  (1 <= 5 <= 12 /\ 0 <= 1 <= 12)
  /\ exists q e a b y,
       startAge r = Some q
       /\ nth_error (daeun r) (Z.to_nat 1) = Some e
       /\ DaeunEntry.startAge e = Some a
       /\ DaeunEntry.endAge e = Some b
       /\ DaeunEntry.startYear e = Some y
       /\ (a == inject_Z (Qfloor q + 10 * 1))%Q
       /\ (b == inject_Z (Qfloor q + 10 * 1 + 9))%Q
       /\ (y == inject_Z (1990 + Qfloor q + 10 * 1))%Q.
Proof.
  assert (Hm : 1 <= 5 <= 12) by lia.
  assert (Hi : 0 <= 1 <= 12) by lia.
  split; [split; assumption |].
  apply (X18_daeun_decades_tile 1990 5 15 male "丙" "寅" "庚" 1 Hm Hi).
Defined.

(** X19. A Month pillar that stands nowhere in the cycle is not told
    apart from 甲子: the indexer falls back to position 0, and
    [calculateDaeun] returns for it exactly what it returns for the
    Month pillar 甲子. *)
Theorem X19_daeun_unknown_month_pillar (birthYear birthMonth birthDay : Z)
    (gender : Gender) (monthStem monthBranch yearStem : string) :
  ~ in_cycle monthStem monthBranch ->
  calculateDaeun birthYear birthMonth birthDay gender
    monthStem monthBranch yearStem
  = calculateDaeun birthYear birthMonth birthDay gender "甲" "子" yearStem.
Proof.
  intros Hno. unfold calculateDaeun, getGanZhiIndex.
  rewrite (not_in_cycle_scan _ _ Hno). reflexivity.
Qed.

Lemma X19_daeun_unknown_month_pillar_witness :
  ~ in_cycle "甲" "丑"
  /\ calculateDaeun 1990 5 15 male "甲" "丑" "庚"
     = calculateDaeun 1990 5 15 male "甲" "子" "庚".
Proof.
  assert (Hno : ~ in_cycle "甲" "丑").
  { intros Hc. apply in_cycle_tables in Hc.
    destruct Hc as (_ & _ & Hpar). vm_compute in Hpar. discriminate Hpar. }
  split; [exact Hno |].
  apply (X19_daeun_unknown_month_pillar 1990 5 15 male "甲" "丑" "庚" Hno).
Defined.

Lemma NoDup_counter (lo : Z) (n : nat) : NoDup (counter lo n).
Proof.
  unfold counter. apply NoDup_map_NoDup_ForallPairs; [| apply seq_NoDup].
  intros x y _ _ E. lia.
Qed.

(** The position in the cycle of the pair found at any integer. *)
Lemma getGanZhiIndex_pair_at (p : Z) :
  getGanZhiIndex (stem (getGanZhiFromIndex p))
                 (branch (getGanZhiFromIndex p)) = p mod 60.
Proof.
  rewrite getGanZhiFromIndex_mod. unfold getGanZhiIndex.
  pose proof (Z.mod_pos_bound p 60 ltac:(lia)) as Hp.
  destruct (pair_at_position (p mod 60) ltac:(lia)) as (_ & _ & _ & _ & ->).
  reflexivity.
Qed.

Lemma daeunPairs_walk (birthYear birthMonth birthDay : Z) (gender : Gender)
    (monthStem monthBranch yearStem : string) :
  map daeunPair
      (daeun (calculateDaeun birthYear birthMonth birthDay gender
                monthStem monthBranch yearStem))
  = map (fun i => getGanZhiFromIndex
                    (if isForward yearStem gender
                     then getGanZhiIndex monthStem monthBranch + i + 1
                     else getGanZhiIndex monthStem monthBranch - i - 1))
        (counter 0 13).
Proof.
  rewrite daeun_map, map_map. apply map_ext. intros i.
  apply daeunPair_entry.
Qed.

(** X20. The walk of the decades: whatever the inputs, the 13 entries
    hold 13 different pairs, and from each entry to the next the
    position in the cycle moves by one step, up when the walk is forward
    and down when it is backward, modulo 60. *)
Theorem X20_daeun_walk_steps (birthYear birthMonth birthDay : Z)
    (gender : Gender) (monthStem monthBranch yearStem : string) :
  let pairs :=
    map daeunPair
        (daeun (calculateDaeun birthYear birthMonth birthDay gender
                  monthStem monthBranch yearStem)) in
  let step := if isForward yearStem gender then 1 else -1 in
  NoDup pairs
  /\ forall i, 0 <= i <= 11 ->
       exists a b,
         nth_error pairs (Z.to_nat i) = Some a
         /\ nth_error pairs (Z.to_nat (i + 1)) = Some b
         /\ getGanZhiIndex (stem b) (branch b)
            = (getGanZhiIndex (stem a) (branch a) + step) mod 60.
Proof.
  cbv zeta. rewrite daeunPairs_walk.
  set (m := getGanZhiIndex monthStem monthBranch).
  set (fwd := isForward yearStem gender).
  split.
  - apply NoDup_map_NoDup_ForallPairs.
    + intros x y Hx Hy E. apply In_counter in Hx, Hy.
      apply getGanZhiFromIndex_inj in E.
      destruct fwd; Z.to_euclidean_division_equations; lia.
    + apply NoDup_counter.
  - intros i Hi. do 2 eexists.
    rewrite !nth_error_map, !nth_error_counter by lia.
    cbn [option_map]. split; [reflexivity |]. split; [reflexivity |].
    rewrite !getGanZhiIndex_pair_at.
    replace (0 + Z.of_nat (Z.to_nat i)) with i by lia.
    replace (0 + Z.of_nat (Z.to_nat (i + 1))) with (i + 1) by lia.
    destruct fwd; Z.to_euclidean_division_equations; lia.
Qed.

(** X21. The direction depends on the gender alone once the Year Stem is
    fixed: the two genders always walk in opposite directions. A Year
    Stem that is not in the table counts as a Yin Stem: the walk is
    backward for a male subject and forward for a female one. *)
Theorem X21_direction_by_gender (yearStem : string) :
  isForward yearStem male = negb (isForward yearStem female)
  /\ (~ In yearStem GAN ->
      isForward yearStem male = false /\ isForward yearStem female = true).
Proof.
  unfold isForward. split.
  - now destruct (Z.rem (indexOf GAN yearStem) 2 =? 0).
  - intros H. rewrite (indexOf_notin _ _ H). split; reflexivity.
Qed.

Lemma X21_direction_by_gender_witness :
  ~ In "" GAN /\ isForward "" male = false /\ isForward "" female = true.
Proof.
  assert (Hn : ~ In "" GAN).
  { simpl. intros H.
    repeat (destruct H as [H | H]; [discriminate H |]). exact H. }
  split; [exact Hn |].
  apply (proj2 (X21_direction_by_gender "") Hn).
Defined.

(* ------------------------------------------------------------------ *)
(** ** More on the year cycle *)

Lemma in_calculateSaeun (Y : Z) (e : SaeunEntry.t) :
  In e (calculateSaeun Y) <-> exists a, 1 <= a <= 110 /\ e = saeunEntry Y a.
Proof.
  rewrite calculateSaeun_map, in_map_iff. split.
  - intros (a & <- & Ha). apply In_counter in Ha.
    exists a. split; [lia | reflexivity].
  - intros (a & Ha & ->). exists a. split; [reflexivity |].
    apply In_counter. lia.
Qed.

Lemma saeunEntry_pair_at (Y a : Z) :
  {| stem := SaeunEntry.stem (saeunEntry Y a);
     branch := SaeunEntry.branch (saeunEntry Y a) |}
  = getGanZhiFromIndex (Y + a - 1 - 1984).
Proof. reflexivity. Qed.

(** X22. The pair of a year entry depends on the calendar year alone,
    with period 60: every entry of [calculateSaeun] holds the pair at
    position [year - 1984], its age is [year - birthYear + 1], and two
    entries, of the same table or of the tables of two birth years,
    whose years differ by a multiple of 60 hold the same Stem and
    Branch. *)
Theorem X22_saeun_by_calendar_year (Y1 Y2 : Z) (e1 e2 : SaeunEntry.t) :
  In e1 (calculateSaeun Y1) ->
  In e2 (calculateSaeun Y2) ->
  (Y1 <= SaeunEntry.year e1 <= Y1 + 109
   /\ SaeunEntry.age e1 = SaeunEntry.year e1 - Y1 + 1
   /\ {| stem := SaeunEntry.stem e1; branch := SaeunEntry.branch e1 |}
      = getGanZhiFromIndex (SaeunEntry.year e1 - 1984))
  /\ ((SaeunEntry.year e1 - SaeunEntry.year e2) mod 60 = 0 ->
      SaeunEntry.stem e1 = SaeunEntry.stem e2
      /\ SaeunEntry.branch e1 = SaeunEntry.branch e2).
Proof.
  intros H1 H2.
  apply in_calculateSaeun in H1, H2.
  destruct H1 as (a1 & Ha1 & ->). destruct H2 as (a2 & Ha2 & ->).
  split.
  - cbn [SaeunEntry.year SaeunEntry.age saeunEntry].
    split; [lia |]. split; [lia |]. apply saeunEntry_pair_at.
  - intros Hmod.
    pose proof (saeunEntry_pair_at Y1 a1) as P1.
    pose proof (saeunEntry_pair_at Y2 a2) as P2.
    cbn [SaeunEntry.year saeunEntry] in Hmod.
    assert (E : getGanZhiFromIndex (Y1 + a1 - 1 - 1984)
                = getGanZhiFromIndex (Y2 + a2 - 1 - 1984)).
    { rewrite (getGanZhiFromIndex_mod (Y1 + a1 - 1 - 1984)),
              (getGanZhiFromIndex_mod (Y2 + a2 - 1 - 1984)).
      f_equal. Z.to_euclidean_division_equations. lia. }
    rewrite E, <- P2 in P1. now injection P1.
Qed.

Lemma X22_saeun_by_calendar_year_witness :
  let e1 := saeunEntry 1950 95 in
  let e2 := saeunEntry 1984 1 in
  In e1 (calculateSaeun 1950) /\ In e2 (calculateSaeun 1984)
  /\ SaeunEntry.year e1 = 2044 /\ SaeunEntry.year e2 = 1984
  /\ SaeunEntry.stem e1 = SaeunEntry.stem e2
  /\ SaeunEntry.branch e1 = SaeunEntry.branch e2.
Proof.
  assert (H1 : In (saeunEntry 1950 95) (calculateSaeun 1950))
    by (apply in_calculateSaeun; exists 95; split; [lia | reflexivity]).
  assert (H2 : In (saeunEntry 1984 1) (calculateSaeun 1984))
    by (apply in_calculateSaeun; exists 1; split; [lia | reflexivity]).
  destruct (X22_saeun_by_calendar_year 1950 1984 _ _ H1 H2) as [_ Hsame].
  split; [exact H1 |]. split; [exact H2 |].
  split; [reflexivity |]. split; [reflexivity |].
  apply Hsame. reflexivity.
Defined.


(* ------------------------------------------------------------------ *)
(** ** More on the month cycle *)

Lemma yearStemOrdinal_mod10 (y : Z) :
  yearStemOrdinal y = (y - 1984) mod 10.
Proof. rewrite yearStemOrdinal_mod. apply mod60_mod10. Qed.

(** The pair of one month entry is the pair at a position that counts
    the months from the first month of 1984. *)
Lemma wolunEntry_pair_at (y m : Z) :
  1 <= m <= 12 ->
  {| stem := WolunEntry.stem (wolunEntry y m);
     branch := WolunEntry.branch (wolunEntry y m) |}
  = getGanZhiFromIndex (12 * (y - 1984) + m + 1).
Proof.
  intros Hm.
  destruct (wolunEntry_indices y m Hm) as (Hs & Hb & _).
  destruct (getGanZhiFromIndex_ordinals (12 * (y - 1984) + m + 1))
    as (Gs & Gb & _).
  assert (E10 : (spec_fiveTigersStart (yearStemOrdinal y) + m - 1) mod 10
                = (12 * (y - 1984) + m + 1) mod 10).
  { rewrite yearStemOrdinal_mod10.
    pose proof (Z.mod_pos_bound (y - 1984) 10 ltac:(lia)) as Hk.
    assert (Hy : exists h, y - 1984 = 10 * h + (y - 1984) mod 10)
      by (exists ((y - 1984) / 10); apply Z.div_mod; lia).
    destruct Hy as [h Hy]. rewrite Hy at 2.
    generalize dependent ((y - 1984) mod 10). intros k Hk _.
    enum_range k 0 10%nat;
      match goal with
      | |- context [spec_fiveTigersStart ?c] =>
          let v := eval vm_compute in (spec_fiveTigersStart c) in
          change (spec_fiveTigersStart c) with v
      end;
      Z.to_euclidean_division_equations; lia. }
  assert (E12 : (m + 1) mod 12 = (12 * (y - 1984) + m + 1) mod 12)
    by (Z.to_euclidean_division_equations; lia).
  rewrite E10 in Hs. rewrite E12 in Hb.
  assert (S1 : WolunEntry.stem (wolunEntry y m)
               = stem (getGanZhiFromIndex (12 * (y - 1984) + m + 1)))
    by congruence.
  assert (S2 : WolunEntry.branch (wolunEntry y m)
               = branch (getGanZhiFromIndex (12 * (y - 1984) + m + 1)))
    by congruence.
  rewrite S1, S2. now destruct (getGanZhiFromIndex _).
Qed.

(** X24. The months walk the cycle without a break: the entry of the
    month [m] of the year [y] holds the pair at position
    [12 * (y - 1984) + m + 1], so the [k]-th entry of [calculateWolun Y]
    (from 0) holds the pair [k] positions after the first one, also
    from the twelfth month of a year to the first month of the next,
    and the pairs come back every 60 entries, that is every five
    years. *)
Theorem X24_wolun_walks_cycle (Y k : Z) :
  0 <= k <= 719 ->
  exists e,
    nth_error (calculateWolun Y) (Z.to_nat k) = Some e
    /\ WolunEntry.year e = Y + k / 12
    /\ WolunEntry.month e = k mod 12 + 1
    /\ {| stem := WolunEntry.stem e; branch := WolunEntry.branch e |}
       = getGanZhiFromIndex
           (12 * (WolunEntry.year e - 1984) + WolunEntry.month e + 1)
    /\ {| stem := WolunEntry.stem e; branch := WolunEntry.branch e |}
       = getGanZhiFromIndex (12 * (Y - 1984) + 2 + k).
Proof.
  intros Hk.
  assert (Hrow : forall i,
             List.length (map (wolunEntry (Y + i)) (counter 1 12)) = 12%nat)
    by (intros i; now rewrite length_map, length_counter).
  pose proof (Z.mod_pos_bound k 12 ltac:(lia)) as Hm.
  assert (Hq : 0 <= k / 12 <= 59)
    by (Z.to_euclidean_division_equations; lia).
  exists (wolunEntry (Y + k / 12) (k mod 12 + 1)).
  split; [| split; [reflexivity | split; [reflexivity |]]].
  - rewrite calculateWolun_rows.
    replace (Z.to_nat k)
      with (Z.to_nat (k / 12) * 12 + Z.to_nat (k mod 12))%nat
      by (Z.to_euclidean_division_equations; lia).
    rewrite (nth_error_flat_map_rows _ 12%nat _ Hrow) by lia.
    rewrite nth_error_counter by lia.
    rewrite nth_error_map, nth_error_counter by lia.
    cbn [option_map]. do 2 f_equal; lia.
  - cbn [WolunEntry.year WolunEntry.month wolunEntry].
    rewrite (wolunEntry_pair_at (Y + k / 12) (k mod 12 + 1)) by lia.
    split; [reflexivity |]. f_equal.
    Z.to_euclidean_division_equations. lia.
Qed.

Lemma X24_wolun_walks_cycle_witness :
  0 <= 12 <= 719
  /\ exists e,
       nth_error (calculateWolun 1984) (Z.to_nat 12) = Some e
       /\ WolunEntry.year e = 1985 /\ WolunEntry.month e = 1
       /\ {| stem := WolunEntry.stem e; branch := WolunEntry.branch e |}
          = getGanZhiFromIndex 14.
Proof.
  assert (Hk : 0 <= 12 <= 719) by lia.
  destruct (X24_wolun_walks_cycle 1984 12 Hk) as (e & Hn & Hy & Hm & _ & Hp).
  split; [exact Hk |]. exists e.
  split; [exact Hn |]. split; [exact Hy |]. split; [exact Hm | exact Hp].
Defined.

(* ------------------------------------------------------------------ *)
(** ** The tables on the page *)

Lemma counter_succ (lo : Z) (n : nat) :
  counter lo (S n) = lo :: counter (lo + 1) n.
Proof.
  unfold counter. cbn [seq map]. f_equal; [lia |].
  rewrite <- seq_shift, map_map. apply map_ext. intros k. lia.
Qed.

Lemma flat_map_head {A I : Type} (g : I -> list A) (i : I) (rows : list I) :
  flat_map g (i :: rows) = g i ++ flat_map g rows.
Proof. reflexivity. Qed.

Lemma filter_flat_map_rows {A I : Type} (f : A -> bool) (g : I -> list A)
    (rows : list I) :
  filter f (flat_map g rows) = flat_map (fun i => filter f (g i)) rows.
Proof.
  induction rows as [| i rows IH]; [reflexivity |].
  now rewrite !flat_map_head, filter_app, IH.
Qed.

Lemma filter_all {A : Type} (f : A -> bool) (l : list A) :
  (forall x, In x l -> f x = true) -> filter f l = l.
Proof.
  induction l as [| x l IH]; intros H; [reflexivity |].
  cbn [filter]. rewrite (H x) by now left.
  f_equal. apply IH. intros y Hy. apply H. now right.
Qed.

Lemma filter_none {A : Type} (f : A -> bool) (l : list A) :
  (forall x, In x l -> f x = false) -> filter f l = [].
Proof.
  induction l as [| x l IH]; intros H; [reflexivity |].
  cbn [filter]. rewrite (H x) by now left.
  apply IH. intros y Hy. apply H. now right.
Qed.

(** The rows of the month cycle that are of the year [y], for the rows
    of the year offsets [lo, ..., lo + n - 1]. *)
Lemma wolun_rows_of_year (Y y : Z) (n : nat) :
  forall lo,
    flat_map (fun yo => filter (fun w => WolunEntry.year w =? y)
                               (map (wolunEntry (Y + yo)) (counter 1 12)))
             (counter lo n)
    = if (lo <=? y - Y) && (y - Y <? lo + Z.of_nat n)
      then map (wolunEntry y) (counter 1 12)
      else [].
Proof.
  induction n as [| n IH]; intros lo.
  - cbn [counter seq map flat_map].
    destruct (lo <=? y - Y) eqn:E1, (y - Y <? lo + Z.of_nat 0) eqn:E2;
      try reflexivity.
    apply Z.leb_le in E1. apply Z.ltb_lt in E2. lia.
  - rewrite (counter_succ lo n), flat_map_head, IH.
    destruct (Z.eq_dec (Y + lo) y) as [E | Hne].
    + rewrite filter_all.
      2:{ intros w Hw. apply in_map_iff in Hw. destruct Hw as (m & <- & _).
          cbn [WolunEntry.year wolunEntry]. now apply Z.eqb_eq. }
      replace (lo + 1 <=? y - Y) with false by (symmetry; apply Z.leb_gt; lia).
      replace (lo <=? y - Y) with true by (symmetry; apply Z.leb_le; lia).
      replace (y - Y <? lo + Z.of_nat (S n)) with true
        by (symmetry; apply Z.ltb_lt; lia).
      cbn [andb]. rewrite app_nil_r. now rewrite E.
    + rewrite filter_none.
      2:{ intros w Hw. apply in_map_iff in Hw. destruct Hw as (m & <- & _).
          cbn [WolunEntry.year wolunEntry]. now apply Z.eqb_neq. }
      cbn [app].
      replace (y - Y <? lo + 1 + Z.of_nat n) with (y - Y <? lo + Z.of_nat (S n))
        by (f_equal; lia).
      destruct (y - Y <? lo + Z.of_nat (S n)); [| now rewrite !andb_false_r].
      rewrite !andb_true_r.
      destruct (Z.leb_spec (lo + 1) (y - Y)), (Z.leb_spec lo (y - Y));
        try reflexivity; lia.
Qed.

(** X25. The months that the page shows for a year: filtering the month
    cycle of the birth year [Y] by a year [y] gives the twelve entries of
    [y], months 1 to 12 in order, when [Y <= y <= Y + 59], and nothing
    at all for any other year. For a displayed year more than 59 years
    after the birth year the page has no month to show. *)
Theorem X25_months_shown_for_year (Y y : Z) :
  yearWolun (calculateWolun Y) y
  = if (Y <=? y) && (y <=? Y + 59)
    then map (wolunEntry y) (counter 1 12)
    else [].
Proof.
  unfold yearWolun. rewrite calculateWolun_rows, filter_flat_map_rows.
  rewrite (wolun_rows_of_year Y y 60 0).
  replace (0 <=? y - Y) with (Y <=? y).
  2:{ destruct (Z.leb_spec Y y), (Z.leb_spec 0 (y - Y)); try reflexivity; lia. }
  replace (y - Y <? 0 + Z.of_nat 60) with (y <=? Y + 59).
  2:{ destruct (Z.leb_spec y (Y + 59)), (Z.ltb_spec (y - Y) (0 + Z.of_nat 60));
        try reflexivity; lia. }
  reflexivity.
Qed.

(* ------------------------------------------------------------------ *)
(** ** The decade that the page marks as current *)

Lemma inject_Z_le (x y : Z) : (inject_Z x <= inject_Z y)%Q <-> x <= y.
Proof. now rewrite <- Zle_Qle. Qed.

(** When entry [i] is the current one, for the age [a]. *)
Lemma isCurrentDaeun_entry (birthYear : Z) (fwd : bool) (m : Z) (q : Q)
    (a i : Z) :
  isCurrentDaeun a (daeunEntry birthYear fwd m (Some q) i) = true
  <-> (if i =? 0 then (q <= inject_Z a)%Q else Qfloor q + 10 * i <= a)
      /\ a <= Qfloor q + 10 * i + 9.
Proof.
  unfold isCurrentDaeun, daeunEntry.
  cbn [DaeunEntry.startAge DaeunEntry.endAge].
  rewrite andb_true_iff.
  assert (Hend : num_leb (Num.of_Z a)
                   (Num.sub (Num.add (Num.floor (Some q))
                                     (Num.of_Z ((i + 1) * 10)))
                            (Num.of_Z 1)) = true
                 <-> a <= Qfloor q + 10 * i + 9).
  { cbn [num_leb Num.add Num.sub Num.floor Num.of_Z Num.lift1 Num.lift2
         option_map].
    rewrite Qle_bool_iff. q_arith. }
  rewrite Hend.
  destruct (i =? 0).
  - cbn [num_leb Num.of_Z]. now rewrite Qle_bool_iff.
  - cbn [num_leb Num.add Num.floor Num.of_Z Num.lift1 Num.lift2 option_map].
    rewrite Qle_bool_iff.
    assert (E : (inject_Z (Qfloor q) + inject_Z (i * 10) <= inject_Z a)%Q
                <-> Qfloor q + 10 * i <= a) by q_arith.
    now rewrite E.
Qed.

Lemma floor_le_age (q : Q) (a : Z) : (q <= inject_Z a)%Q -> Qfloor q <= a.
Proof.
  intros H. apply inject_Z_le.
  apply Qle_trans with q; [apply Qfloor_le | exact H].
Qed.

Lemma age_above_floor (q : Q) (a : Z) :
  Qfloor q + 1 <= a -> (q <= inject_Z a)%Q.
Proof.
  intros H. apply Qlt_le_weak.
  apply Qlt_le_trans with (inject_Z (Qfloor q + 1)); [apply Qlt_floor |].
  now apply inject_Z_le.
Qed.

(** X26. The page marks a decade as current when the age lies between
    its starting and its ending age. For a month of the calendar and any
    integer age, at most one of the 13 decades is marked; one is marked
    exactly when the age is at least the starting age and at most
    [floor startAge + 129]. For an age below the starting age no decade
    is marked. *)
Theorem X26_current_decade (birthYear birthMonth birthDay : Z)
    (gender : Gender) (monthStem monthBranch yearStem : string) (a : Z) :
  1 <= birthMonth <= 12 ->
  let r := calculateDaeun birthYear birthMonth birthDay gender
             monthStem monthBranch yearStem in
  exists q,
    startAge r = Some q
    /\ (forall e1 e2, In e1 (daeun r) -> In e2 (daeun r) ->
          isCurrentDaeun a e1 = true -> isCurrentDaeun a e2 = true ->
          e1 = e2)
    /\ ((exists e, In e (daeun r) /\ isCurrentDaeun a e = true)
        <-> (q <= inject_Z a)%Q /\ a <= Qfloor q + 129).
Proof.
  intros Hm r.
  destruct (daeunStartAge_in_month birthMonth birthDay Hm) as (t & _ & Hq).
  set (q := (inject_Z t / inject_Z 10)%Q) in Hq.
  exists q. split; [exact Hq |].
  assert (Hin : forall e, In e (daeun r) <->
            exists i, 0 <= i <= 12
              /\ e = daeunEntry birthYear (isForward yearStem gender)
                       (getGanZhiIndex monthStem monthBranch) (Some q) i).
  { intros e. subst r. rewrite daeun_map, Hq, in_map_iff. split.
    - intros (i & <- & Hi). apply In_counter in Hi.
      exists i. split; [lia | reflexivity].
    - intros (i & Hi & ->). exists i. split; [reflexivity |].
      apply In_counter. lia. }
  assert (Hidx : forall i, 0 <= i <= 12 ->
            isCurrentDaeun a
              (daeunEntry birthYear (isForward yearStem gender)
                 (getGanZhiIndex monthStem monthBranch) (Some q) i) = true ->
            Qfloor q + 10 * i <= a <= Qfloor q + 10 * i + 9
            /\ (q <= inject_Z a)%Q).
  { intros i Hi Hc. apply isCurrentDaeun_entry in Hc.
    destruct Hc as [Hlo Hhi].
    destruct (Z.eqb_spec i 0) as [-> | Hne].
    - pose proof (floor_le_age q a Hlo). split; [lia | exact Hlo].
    - split; [lia |]. apply age_above_floor. lia. }
  split.
  - intros e1 e2 H1 H2 C1 C2.
    apply Hin in H1, H2.
    destruct H1 as (i & Hi & ->). destruct H2 as (j & Hj & ->).
    destruct (Hidx i Hi C1) as [Bi _]. destruct (Hidx j Hj C2) as [Bj _].
    replace j with i by lia. reflexivity.
  - split.
    + intros (e & He & Hc). apply Hin in He. destruct He as (i & Hi & ->).
      destruct (Hidx i Hi Hc) as [B Hq']. split; [exact Hq' | lia].
    + intros [Hlo Hhi].
      pose proof (floor_le_age q a Hlo) as Hf.
      set (i := (a - Qfloor q) / 10).
      assert (Hi : 0 <= i <= 12)
        by (subst i; Z.to_euclidean_division_equations; lia).
      assert (Hb : Qfloor q + 10 * i <= a <= Qfloor q + 10 * i + 9)
        by (subst i; Z.to_euclidean_division_equations; lia).
      eexists. split; [apply Hin; exists i; split; [exact Hi | reflexivity] |].
      apply isCurrentDaeun_entry. split; [| lia].
      destruct (i =? 0); [exact Hlo | lia].
Qed.

Lemma X26_current_decade_witness :
  let r := calculateDaeun 1990 5 15 male "丙" "寅" "庚" in
  1 <= 5 <= 12
  /\ startAge r = Some (53 # 10)
  /\ forallb (fun e => negb (isCurrentDaeun 5 e)) (daeun r) = true
  /\ exists q,
       startAge r = Some q
       /\ ((exists e, In e (daeun r) /\ isCurrentDaeun 5 e = true)
           <-> (q <= inject_Z 5)%Q /\ 5 <= Qfloor q + 129).
Proof.
  assert (Hm : 1 <= 5 <= 12) by lia.
  split; [exact Hm |]. split; [reflexivity |]. split; [reflexivity |].
  destruct (X26_current_decade 1990 5 15 male "丙" "寅" "庚" 5 Hm)
    as (q & Hq & _ & Hex).
  exists q. split; [exact Hq | exact Hex].
Defined.

(* ------------------------------------------------------------------ *)
(** ** The chat history *)

(** X27. The history handed to the chat never starts with a turn of the
    model: [adjustedHistory] leaves a history alone when it is empty or
    starts with another role, and otherwise puts one user turn in front
    of it, keeping every turn of the history in place. Adjusting twice
    changes nothing more. *)
Theorem X27_history_starts_with_user (h : list ChatTurn) :
  let h' := adjustedHistory h in
  (forall t, hd_error h' = Some t -> role t <> "model")
  /\ (h' = h \/ exists t, role t = "user" /\ h' = t :: h)
  /\ (h' = h <-> forall t, hd_error h = Some t -> role t <> "model")
  /\ adjustedHistory h' = h'.
Proof.
  cbv zeta. unfold adjustedHistory.
  destruct h as [| first rest].
  - split; [discriminate |]. split; [now left |].
    split; [| reflexivity]. split; [discriminate | reflexivity].
  - destruct (String.eqb_spec (role first) "model") as [E | Hne].
    + split; [| split; [| split]].
      * intros t H. cbn in H. injection H as <-. cbn. discriminate.
      * right. eexists. split; [| reflexivity]. reflexivity.
      * split.
        -- intros H. exfalso.
           apply (f_equal (@List.length ChatTurn)) in H. cbn in H. lia.
        -- intros H. exfalso. apply (H first); [reflexivity | exact E].
      * reflexivity.
    + split; [| split; [| split]].
      * intros t H. cbn in H. injection H as <-. exact Hne.
      * now left.
      * split; [| reflexivity].
        intros _ t H. cbn in H. injection H as <-. exact Hne.
      * destruct (String.eqb_spec (role first) "model");
          [contradiction | reflexivity].
Qed.

(* ------------------------------------------------------------------ *)
(** ** The API key *)

(** X28. Setting the API key makes the client and stores the key: after
    [setApiKey k] the key is set and [getStoredApiKey] gives [k] back,
    the latest key when several were set. When the module is loaded
    again on the same storage the key is still stored, but the client is
    made only for a key that is not empty: after [setApiKey ""] the
    key counts as set until the page is loaded again. *)
Theorem X28_api_key_round_trip (k : string) (s : ApiKey.State) :
  let s' := ApiKey.setApiKey k s in
  let reloaded := ApiKey.loadModule (ApiKey.localStorage s') in
  ApiKey.isApiKeySet s' = true
  /\ ApiKey.getStoredApiKey s' = Some k
  /\ (forall k0, ApiKey.getStoredApiKey (ApiKey.setApiKey k (ApiKey.setApiKey k0 s))
                 = Some k)
  /\ ApiKey.getStoredApiKey reloaded = Some k
  /\ ApiKey.isApiKeySet reloaded = negb (String.eqb k "")
  /\ (k <> "" -> ApiKey.ai reloaded = ApiKey.ai s').
Proof.
  cbv zeta.
  unfold ApiKey.setApiKey, ApiKey.loadModule, ApiKey.getStoredApiKey,
    ApiKey.isApiKeySet, ApiKey.getItem, ApiKey.setItem, ApiKey.truthy.
  cbn [ApiKey.ai ApiKey.localStorage record_get].
  rewrite String.eqb_refl.
  repeat split; try reflexivity.
  - now destruct (String.eqb k "").
  - intros Hne. destruct (String.eqb_spec k ""); [contradiction | reflexivity].
Qed.
